(** * VarFcnBase: the equation-of-state base class and its generic algebra

    A shallow embedding of [VarFcnBase.h].  The class relates density,
    pressure and internal energy at one grid point through five virtual
    relations, and builds on them the conservative/primitive transforms, the
    sound speed, the Mach number, the total enthalpy and the clipping of
    density and pressure.

    The embedding keeps what the C++ has:
    - [double] arithmetic is an interface ([Scalar]) with two instances,
      IEEE binary64 (Rocq's primitive floats: what the machine computes) and
      the real numbers (exact arithmetic: what the formulas mean);
    - [double *] arguments are addresses into a heap of doubles, written
      in place, statement by statement, so that aliasing is visible;
    - [fprintf]/[print_error] append to an output trace and [exit_mpi] ends
      the run: a computation either is [Done] with a value and a world, or
      is [Fatal];
    - the operands of an expression are evaluated from left to right (C++
      leaves the order of the calls in [f(x) + g(y)] open; the relations
      of a material write nothing, so only the order of two diagnostics
      could depend on it). *)

From Stdlib Require Import ZArith Bool List String Lia.
From Stdlib Require Import Floats.
From Stdlib Require Import Reals Lra.
Import ListNotations.

Set Implicit Arguments.
Set Warnings "-inexact-float".

(** ** Scalars *)

(** The operations the source applies to a [double]. *)
Class Scalar (T : Type) := {
  d0 : T;                    (* 0.0 *)
  dhalf : T;                 (* 0.5 *)
  d1 : T;                    (* 1.0 *)
  dadd : T -> T -> T;
  dsub : T -> T -> T;
  dmul : T -> T -> T;
  ddiv : T -> T -> T;
  dsqrt : T -> T;
  dlt : T -> T -> bool;      (* x < y *)
  dle : T -> T -> bool       (* x <= y *)
}.

Declare Scope dbl_scope.
Delimit Scope dbl_scope with D.
Infix "+" := dadd : dbl_scope.
Infix "-" := dsub : dbl_scope.
Infix "*" := dmul : dbl_scope.
Infix "/" := ddiv : dbl_scope.
Infix "<?" := dlt : dbl_scope.
Infix "<=?" := dle : dbl_scope.

(** IEEE 754 binary64, round to nearest even: the C++ [double]. *)
#[export] Instance binary64 : Scalar float := {|
  d0 := 0%float;
  dhalf := 0.5%float;
  d1 := 1%float;
  dadd := PrimFloat.add;
  dsub := PrimFloat.sub;
  dmul := PrimFloat.mul;
  ddiv := PrimFloat.div;
  dsqrt := PrimFloat.sqrt;
  dlt := PrimFloat.ltb;
  dle := PrimFloat.leb
|}.

Definition R_ltb (x y : R) : bool := if Rlt_dec x y then true else false.
Definition R_leb (x y : R) : bool := if Rle_dec x y then true else false.

(** Exact arithmetic over the reals: no rounding, no infinities, no NaN. *)
#[export] Instance exact : Scalar R := {|
  d0 := 0%R;
  dhalf := (1 / 2)%R;
  d1 := 1%R;
  dadd := Rplus;
  dsub := Rminus;
  dmul := Rmult;
  ddiv := Rdiv;
  dsqrt := R_sqrt.sqrt;
  dlt := R_ltb;
  dle := R_leb
|}.

(** ** Memory, output and termination *)

(** A [double *]: the address of a cell; [0] is the null pointer and
    [p + i] is the cell [p[i]]. *)
Definition ptr := Z.
Bind Scope Z_scope with ptr.

Inductive stream := stdout | stderr.

(** One call of [fprintf]: the stream, the format and the doubles printed. *)
Record event (T : Type) := Printf {
  ev_stream : stream;
  ev_format : string;
  ev_args : list T
}.

Record world (T : Type) := World {
  heap : ptr -> T;
  output : list (event T)
}.

(** How a call ends: it returns [a] in world [w], or the process is
    terminated in world [w]. *)
Inductive outcome (T A : Type) :=
| Done (a : A) (w : world T)
| Fatal (w : world T).
Arguments Done {T A} a w.
Arguments Fatal {T A} w.

Definition M (T A : Type) := world T -> outcome T A.

Definition ret {T A} (a : A) : M T A := fun w => Done a w.

Definition bind {T A B} (c : M T A) (k : A -> M T B) : M T B :=
  fun w => match c w with
           | Done a w' => k a w'
           | Fatal w' => Fatal w'
           end.

Notation "x <- c ;; k" := (bind c (fun x => k))
  (at level 61, c at next level, right associativity).
Notation "c ;; k" := (bind c (fun _ => k))
  (at level 61, right associativity).

(** [p[i]] read. *)
Definition load {T} (p : ptr) (i : Z) : M T T :=
  fun w => Done (heap w (p + i)%Z) w.

(** [p[i] = x]. *)
Definition store {T} (p : ptr) (i : Z) (x : T) : M T unit :=
  fun w => Done tt
    {| heap := fun a => if (a =? p + i)%Z then x else heap w a;
       output := output w |}.

Definition fprintf {T} (s : stream) (fmt : string) (args : list T) : M T unit :=
  fun w => Done tt
    {| heap := heap w; output := output w ++ [Printf s fmt args] |}.

(** Modelled from the spec: [print_error] of [Utils.h] is not part of the
    sources at hand.  The spec calls it "a synchronous message-emission
    function"; the message goes to the error stream. *)
Definition print_error {T} (msg : string) : M T unit :=
  fprintf stderr msg [].

(** Modelled from the spec: [exit_mpi] of [Utils.h] is not part of the
    sources at hand.  The spec calls it "a process-terminating fatal-error
    function": nothing after it runs. *)
Definition exit_mpi {T} : M T unit :=
  fun w => Fatal w.

(** [if (c) body;] *)
Definition when {T} (c : bool) (body : M T unit) : M T unit :=
  if c then body else ret tt.

(** ** The class *)

(** Modelled from the spec: [MaterialModelData] of [IoData.h] is not part of
    the sources at hand; the constructor reads its two floors, "a record
    supplying {rho_min, p_min}". *)
Record MaterialModelData (T : Type) := {
  data_rhomin : T;
  data_pmin : T
}.

(** An object of the class: its data members and its five virtual member
    functions. *)
Record VarFcn (T : Type) := {
  rhomin : T;
  pmin : T;
  verbose : bool;
  GetPressure : T -> T -> M T T;
  GetInternalEnergyPerUnitMass : T -> T -> M T T;
  GetDensity : T -> T -> M T T;
  GetDpdrho : T -> T -> M T T;
  GetBigGamma : T -> T -> M T T
}.

Section Base.
Context {T : Type} `{Scalar T}.
Local Open Scope string_scope.
Local Open Scope dbl_scope.

(** The base class itself: the constructor copies the floors and the
    flag, and every relation is the base's, which reports and exits. *)
Definition VarFcnBase (data : MaterialModelData T) (verbose_ : bool) : VarFcn T := {|
  rhomin := data_rhomin data;
  pmin := data_pmin data;
  verbose := verbose_;
  GetPressure := fun rho e =>
    print_error "*** Error:  GetPressure Function not defined\n";;
    exit_mpi;; ret d0;
  GetInternalEnergyPerUnitMass := fun rho p =>
    print_error "*** Error:  GetInternalEnergyPerUnitMass Function not defined\n";;
    exit_mpi;; ret d0;
  GetDensity := fun p e =>
    print_error "*** Error:  GetDensity Function not defined\n";;
    exit_mpi;; ret d0;
  GetDpdrho := fun rho e =>
    print_error "*** Error:  GetDpdrho Function not defined\n";;
    exit_mpi;; ret d0;
  GetBigGamma := fun rho e =>
    print_error "*** Error:  GetBigGamma Function not defined\n";;
    exit_mpi;; ret d0
|}.

(** The formulas of a material: what a subclass puts in place of the five
    relations. *)
Record Relations := {
  pressure : T -> T -> T;       (* p(rho, e) *)
  energy : T -> T -> T;         (* e(rho, p) *)
  density : T -> T -> T;        (* rho(p, e) *)
  dpdrho : T -> T -> T;         (* dp/drho at fixed e *)
  bigGamma : T -> T -> T        (* 1/rho * dp/de at fixed rho *)
}.

(** A subclass that overrides the five relations by formulas. *)
Definition Variant (r : Relations) (data : MaterialModelData T)
    (verbose_ : bool) : VarFcn T := {|
  rhomin := data_rhomin data;
  pmin := data_pmin data;
  verbose := verbose_;
  GetPressure := fun rho e => ret (pressure r rho e);
  GetInternalEnergyPerUnitMass := fun rho p => ret (energy r rho p);
  GetDensity := fun p e => ret (density r p e);
  GetDpdrho := fun rho e => ret (dpdrho r rho e);
  GetBigGamma := fun rho e => ret (bigGamma r rho e)
|}.

Variable this : VarFcn T.

(** checks that the Euler equations are still hyperbolic *)
Definition CheckState (V : ptr) : M T bool :=
  V0 <- load V 0;; V4 <- load V 4;;
  e <- GetInternalEnergyPerUnitMass this V0 V4;;
  V0 <- load V 0;;
  a <- GetDpdrho this V0 e;;
  V4 <- load V 4;; V0 <- load V 0;;
  g <- GetBigGamma this V0 e;;
  let c2 := a + V4 / V0 * g in
  V0 <- load V 0;;
  if (V0 <=? d0) || (c2 <=? d0) then
    (when (verbose this)
       (V0 <- load V 0;; V4 <- load V 4;;
        fprintf stdout
          "Warning: Negative density or violation of hyperbolicity. rho = %e, p = %e.\n"
          [V0; V4]));;
    ret true
  else ret false.

Definition ConservativeToPrimitive (U V : ptr) : M T unit :=
  U0 <- load U 0;; store V 0 U0;;
  U0 <- load U 0;;
  let invRho := d1 / U0 in
  U1 <- load U 1;; store V 1 (U1 * invRho);;
  U2 <- load U 2;; store V 2 (U2 * invRho);;
  U3 <- load U 3;; store V 3 (U3 * invRho);;
  U4 <- load U 4;; V0 <- load V 0;;
  V1 <- load V 1;; V2 <- load V 2;; V3 <- load V 3;;
  let e := (U4 - dhalf * V0 * (V1 * V1 + V2 * V2 + V3 * V3)) * invRho in
  V0 <- load V 0;;
  p <- GetPressure this V0 e;;
  store V 4 p.

Definition PrimitiveToConservative (V U : ptr) : M T unit :=
  V0 <- load V 0;; store U 0 V0;;
  V0 <- load V 0;; V1 <- load V 1;; store U 1 (V0 * V1);;
  V0 <- load V 0;; V2 <- load V 2;; store U 2 (V0 * V2);;
  V0 <- load V 0;; V3 <- load V 3;; store U 3 (V0 * V3);;
  V0 <- load V 0;; V4 <- load V 4;;
  e <- GetInternalEnergyPerUnitMass this V0 V4;;
  V0 <- load V 0;;
  V1 <- load V 1;; V2 <- load V 2;; V3 <- load V 3;;
  store U 4 (V0 * (e + dhalf * (V1 * V1 + V2 * V2 + V3 * V3))).

Definition ComputeSoundSpeed (rho e : T) : M T T :=
  a <- GetDpdrho this rho e;;
  p <- GetPressure this rho e;;
  g <- GetBigGamma this rho e;;
  let c2 := a + p / rho * g in
  when (c2 <=? d0)
    (fprintf stderr
       "*** Error: Cannot calculate speed of sound (Square-root of a negative number): rho = %e, e = %e.\n"
       [rho; e];;
     exit_mpi);;
  ret (dsqrt c2).

(** this one does not crash on negative c^2 *)
Definition ComputeSoundSpeedSquare (rho e : T) : M T T :=
  a <- GetDpdrho this rho e;;
  p <- GetPressure this rho e;;
  g <- GetBigGamma this rho e;;
  ret (a + p / rho * g).

Definition ComputeMachNumber (V : ptr) : M T T :=
  V0 <- load V 0;; V4 <- load V 4;;
  e <- GetInternalEnergyPerUnitMass this V0 V4;;
  V0 <- load V 0;;
  c <- ComputeSoundSpeedSquare V0 e;;
  c <- (if c <? d0 then
          (V0 <- load V 0;; V1 <- load V 1;; V2 <- load V 2;;
           V3 <- load V 3;; V4 <- load V 4;;
           fprintf stderr
             "*** Error: c^2 (square of sound speed) = %e in ComputeMachNumber. V = %e, %e, %e, %e, %e.\n"
             [c; V0; V1; V2; V3; V4];;
           exit_mpi;; ret c)
        else ret (dsqrt c));;
  V1 <- load V 1;; V2 <- load V 2;; V3 <- load V 3;;
  ret (dsqrt (V1 * V1 + V2 * V2 + V3 * V3) / c).

(** H = 1/rho*(E + p) *)
Definition ComputeTotalEnthalpyPerUnitMass (V : ptr) : M T T :=
  V0 <- load V 0;; V4 <- load V 4;;
  e <- GetInternalEnergyPerUnitMass this V0 V4;;
  V1 <- load V 1;; V2 <- load V 2;; V3 <- load V 3;;
  V4 <- load V 4;; V0 <- load V 0;;
  ret (e + dhalf * (V1 * V1 + V2 * V2 + V3 * V3) + V4 / V0).

(** verification of density and pressure value: if pressure/density <
    pmin/rhomin, set pressure/density to pmin/rhomin and rewrite V and U.
    [U] defaults to the null pointer. *)
Definition ClipDensityAndPressure (V U : ptr) : M T bool :=
  let clip := false in
  V0 <- load V 0;;
  clip <- (if V0 <? rhomin this then
             when (verbose this)
               (V0 <- load V 0;;
                fprintf stderr "clip density from %e to %e.\n"
                  [V0; rhomin this]);;
             store V 0 (rhomin this);;
             ret true
           else ret clip);;
  V4 <- load V 4;;
  clip <- (if V4 <? pmin this then
             when (verbose this)
               (V4 <- load V 4;;
                fprintf stdout "clip pressure from %e to %e\n"
                  [V4; pmin this]);;
             store V 4 (pmin this);;
             ret true
           else ret clip);;
  when (clip && negb (U =? 0)%Z)     (* also modify U *)
    (PrimitiveToConservative V U);;
  ret clip.

End Base.

Arguments Relations : clear implicits.

(** ** States in memory *)

(** The cell [p[i]] of a world, and the five cells of the state at [p]. *)
Definition cell {T} (w : world T) (p : ptr) (i : Z) : T := heap w (p + i)%Z.

Definition state {T} (w : world T) (p : ptr) : list T :=
  map (cell w p) [0; 1; 2; 3; 4]%Z.

(** Two five-cell buffers that do not overlap. *)
Definition disjoint (p q : ptr) : Prop := (p + 5 <= q \/ q + 5 <= p)%Z.

(** A heap holding [cells] from address [p] on, and [h] elsewhere. *)
Definition with_array {T} (p : ptr) (cells : list T) (h : ptr -> T) : ptr -> T :=
  fun a => if (p <=? a)%Z
           then match nth_error cells (Z.to_nat (a - p)) with
                | Some x => x
                | None => h a
                end
           else h a.

Definition blank {T} `{Scalar T} : ptr -> T := fun _ => d0.

(** A fresh world: [V] at address 8, [U] at address 16, nothing printed. *)
Definition world_VU {T} `{Scalar T} (V U : list T) : world T :=
  {| heap := with_array 8%Z V (with_array 16%Z U blank); output := [] |}.

(** ** The transforms on values

    What the two transforms compute when the source and the target buffers
    do not overlap, as functions of the five values read.  The lemmas
    [PrimitiveToConservative_Variant] and [ConservativeToPrimitive_Variant]
    below relate them to the in-place code. *)

Section Values.
Context {T : Type} `{Scalar T}.
Local Open Scope dbl_scope.

Definition conservative_of (r : Relations T) (V : list T) : list T :=
  match V with
  | [V0; V1; V2; V3; V4] =>
      let e := energy r V0 V4 in
      [V0; V0 * V1; V0 * V2; V0 * V3;
       V0 * (e + dhalf * (V1 * V1 + V2 * V2 + V3 * V3))]
  | _ => []
  end.

Definition primitive_of (r : Relations T) (U : list T) : list T :=
  match U with
  | [U0; U1; U2; U3; U4] =>
      let invRho := d1 / U0 in
      let V1 := U1 * invRho in
      let V2 := U2 * invRho in
      let V3 := U3 * invRho in
      let e := (U4 - dhalf * U0 * (V1 * V1 + V2 * V2 + V3 * V3)) * invRho in
      [U0; V1; V2; V3; pressure r U0 e]
  | _ => []
  end.

(** The first entry of a state. *)
Definition density_of (l : list T) : T := nth 0 l d0.

(** The squared sound speed of the material at [(rho, e)]. *)
Definition c2_of (r : Relations T) (rho e : T) : T :=
  dpdrho r rho e + pressure r rho e / rho * bigGamma r rho e.

End Values.

(** ** Materials used as instances *)

Section Materials.
Context {T : Type} `{Scalar T}.
Local Open Scope dbl_scope.

(** The perfect gas [p = (gamma - 1) rho e]. *)
Definition perfect_gas (gamma : T) : Relations T := {|
  pressure := fun rho e => (gamma - d1) * rho * e;
  energy := fun rho p => p / ((gamma - d1) * rho);
  density := fun p e => p / ((gamma - d1) * e);
  dpdrho := fun rho e => (gamma - d1) * e;
  bigGamma := fun rho e => gamma - d1
|}.

(** A material whose pressure is its internal energy per unit mass,
    whatever the density: the two relations invert one another without any
    arithmetic. *)
Definition pressure_is_energy : Relations T := {|
  pressure := fun rho e => e;
  energy := fun rho p => p;
  density := fun p e => d1;
  dpdrho := fun rho e => d0;
  bigGamma := fun rho e => d1 / rho
|}.

(** [GetPressure] and [GetInternalEnergyPerUnitMass] undo one another at
    the density [rho]. *)
Definition mutual_inverses_at (r : Relations T) (rho : T) : Prop :=
  (forall p, pressure r rho (energy r rho p) = p) /\
  (forall e, energy r rho (pressure r rho e) = e).

End Materials.

Definition floors {T} (rho_min p_min : T) : MaterialModelData T :=
  {| data_rhomin := rho_min; data_pmin := p_min |}.

(** A double that is a number: anything but NaN. *)
Definition is_number (x : float) : Prop := PrimFloat.is_nan x = false.

(** The second entry of a state of doubles, as sign, mantissa and
    exponent. *)
Definition second_entry (l : list float) : spec_float :=
  match l with
  | _ :: x :: _ => Prim2SF x
  | _ => S754_nan
  end.

(** The world in which a call ended, returned or not. *)
Definition final_world {T A} (o : outcome T A) : world T :=
  match o with
  | Done _ w => w
  | Fatal w => w
  end.

(** The last thing printed, if any. *)
Definition last_printed {T} (w : world T) : option (event T) :=
  last (map Some (output w)) None.

(** * Properties *)

Unset Implicit Arguments.

Ltac run :=
  unfold CheckState, ConservativeToPrimitive, PrimitiveToConservative,
    ComputeSoundSpeed, ComputeSoundSpeedSquare, ComputeMachNumber,
    ComputeTotalEnthalpyPerUnitMass, ClipDensityAndPressure,
    bind, ret, load, store, when, fprintf, print_error, exit_mpi, cell;
  cbn.

(** Decides the address comparisons left by reads after writes. *)
Ltac addr :=
  repeat match goal with
  | |- context [(?a =? ?b)%Z] =>
      let E := fresh "E" in
      first [ assert (E : (a =? b)%Z = false)
                by (apply Z.eqb_neq; unfold disjoint in *; lia)
            | assert (E : (a =? b)%Z = true)
                by (apply Z.eqb_eq; unfold disjoint in *; lia) ];
      rewrite !E; clear E
  end.

(** ** The transforms, for any arithmetic *)

Section Generic.
Context {T : Type} `{Scalar T}.
Local Open Scope string_scope.
Local Open Scope dbl_scope.

Variables (r : Relations T) (data : MaterialModelData T) (vb : bool).

(** Outside [U], [PrimitiveToConservative] changes nothing; in [U] it
    leaves [conservative_of] the state read from [V]. *)
Lemma PrimitiveToConservative_Variant (V U : ptr) (w : world T) :
  disjoint V U ->
  exists w',
    PrimitiveToConservative (Variant r data vb) V U w = Done tt w' /\
    state w' U = conservative_of r (state w V) /\
    output w' = output w /\
    forall a, (a < U \/ U + 5 <= a)%Z -> heap w' a = heap w a.
Proof.
  intros D. eexists. split; [run; reflexivity|].
  split; [|split; [reflexivity|]].
  - unfold state, cell, conservative_of. cbn. addr. reflexivity.
  - intros a Ha. cbn. addr. reflexivity.
Qed.

Lemma ConservativeToPrimitive_Variant (U V : ptr) (w : world T) :
  disjoint U V ->
  exists w',
    ConservativeToPrimitive (Variant r data vb) U V w = Done tt w' /\
    state w' V = primitive_of r (state w U) /\
    output w' = output w /\
    forall a, (a < V \/ V + 5 <= a)%Z -> heap w' a = heap w a.
Proof.
  intros D. eexists. split; [run; reflexivity|].
  split; [|split; [reflexivity|]].
  - unfold state, cell, primitive_of. cbn. addr. reflexivity.
  - intros a Ha. cbn. addr. reflexivity.
Qed.

(** ** The base class *)

(** C9: on the base class itself every one of the five relations prints its
    diagnostic on the error stream and terminates the run, for every input
    and in every world; none of them returns. *)
Theorem base_relations_are_fatal (x y : T) (w : world T) :
  let f := VarFcnBase data vb in
  let says (msg : string) : outcome T T :=
    Fatal {| heap := heap w; output := output w ++ [Printf stderr msg []] |} in
  GetPressure f x y w =
    says "*** Error:  GetPressure Function not defined\n" /\
  GetInternalEnergyPerUnitMass f x y w =
    says "*** Error:  GetInternalEnergyPerUnitMass Function not defined\n" /\
  GetDensity f x y w =
    says "*** Error:  GetDensity Function not defined\n" /\
  GetDpdrho f x y w =
    says "*** Error:  GetDpdrho Function not defined\n" /\
  GetBigGamma f x y w =
    says "*** Error:  GetBigGamma Function not defined\n".
Proof. repeat split. Qed.

(** ** Derived quantities of a variant *)

(** C8: the total enthalpy of the state at [V] is
    [e + 0.5 * (u*u + v*v + w*w) + p / rho] with
    [e = GetInternalEnergyPerUnitMass(rho, p)].  The function has no exit of
    its own: on any object it ends as the call of the relation ends, and on
    a variant whose relations are formulas it returns for every state (also
    at [rho = 0]) and leaves the world as it was. *)
Theorem total_enthalpy_formula (V : ptr) (w : world T) :
  (forall this : VarFcn T,
     ComputeTotalEnthalpyPerUnitMass this V w =
     match GetInternalEnergyPerUnitMass this (cell w V 0) (cell w V 4) w with
     | Done e w' =>
         Done (e + dhalf * (cell w' V 1 * cell w' V 1 + cell w' V 2 * cell w' V 2
                            + cell w' V 3 * cell w' V 3)
               + cell w' V 4 / cell w' V 0) w'
     | Fatal w' => Fatal w'
     end) /\
  (let rho := cell w V 0 in
   let u := cell w V 1 in
   let v := cell w V 2 in
   let w3 := cell w V 3 in
   let p := cell w V 4 in
   let e := energy r rho p in
   ComputeTotalEnthalpyPerUnitMass (Variant r data vb) V w =
   Done (e + dhalf * (u * u + v * v + w3 * w3) + p / rho) w).
Proof.
  split; [|reflexivity].
  intros this. unfold ComputeTotalEnthalpyPerUnitMass, bind, load, ret, cell.
  destruct (GetInternalEnergyPerUnitMass this _ _ w); reflexivity.
Qed.

(** C7: [CheckState] on a variant returns [true] exactly when [rho <= 0]
    or [c2 <= 0], where [c2 = GetDpdrho(rho,e) + p/rho * GetBigGamma(rho,e)]
    and [e = GetInternalEnergyPerUnitMass(rho,p)].  It always returns (no
    fatal path), and the heap, hence [V], is what it was: only the output
    may grow. *)
Theorem CheckState_verdict (V : ptr) (w : world T) :
  let rho := cell w V 0 in
  let p := cell w V 4 in
  let e := energy r rho p in
  let c2 := dpdrho r rho e + p / rho * bigGamma r rho e in
  exists b w',
    CheckState (Variant r data vb) V w = Done b w' /\
    (b = true <-> (rho <=? d0) = true \/ (c2 <=? d0) = true) /\
    heap w' = heap w /\
    state w' V = state w V.
Proof.
  intros rho p e c2. subst rho p e c2. run.
  match goal with |- context [if ?c then _ else _] => destruct c eqn:E end.
  - apply orb_true_iff in E.
    destruct vb; cbn; do 2 eexists; (split; [reflexivity|]);
      (split; [tauto|]); split; reflexivity.
  - apply orb_false_iff in E. destruct E as [E1 E2].
    do 2 eexists; split; [reflexivity|].
    split; [|split; reflexivity].
    rewrite E1, E2. intuition discriminate.
Qed.

(** What [CheckState] prints: the warning, when it answers [true] and the
    object is verbose. *)
Lemma CheckState_output (V : ptr) (w : world T) (b : bool) (w' : world T) :
  CheckState (Variant r data vb) V w = Done b w' ->
  output w' =
  (output w ++
   if b && vb
   then [Printf stdout
           "Warning: Negative density or violation of hyperbolicity. rho = %e, p = %e.\n"
           [cell w V 0; cell w V 4]]
   else [])%list.
Proof.
  run.
  match goal with |- context [if ?c then _ else _] => destruct c end.
  - destruct vb; intros E; injection E as <- <-; cbn;
      [reflexivity | symmetry; apply app_nil_r].
  - intros E; injection E as <- <-. symmetry; apply app_nil_r.
Qed.

(** [ComputeSoundSpeedSquare] returns [c2_of]; [ComputeSoundSpeed] exits
    exactly when that value is [<= 0] and otherwise returns its square
    root. *)
Lemma sound_speed_of_variant (rho e : T) (w : world T) :
  let f := Variant r data vb in
  let c2 := c2_of r rho e in
  ComputeSoundSpeedSquare f rho e w = Done c2 w /\
  ComputeSoundSpeed f rho e w =
    if c2 <=? d0
    then Fatal {| heap := heap w;
                  output := output w ++
                    [Printf stderr
                       "*** Error: Cannot calculate speed of sound (Square-root of a negative number): rho = %e, e = %e.\n"
                       [rho; e]] |}
    else Done (dsqrt c2) w.
Proof.
  intros f c2. split; [reflexivity|].
  subst f c2. unfold c2_of. run.
  match goal with |- context [if ?c then _ else _] => destruct c end;
    reflexivity.
Qed.

(** [ComputeMachNumber] exits exactly when [c2 < 0]. *)
Lemma ComputeMachNumber_Variant (V : ptr) (w : world T) :
  let rho := cell w V 0 in
  let u := cell w V 1 in
  let v := cell w V 2 in
  let w3 := cell w V 3 in
  let p := cell w V 4 in
  let c2 := c2_of r rho (energy r rho p) in
  ComputeMachNumber (Variant r data vb) V w =
    if c2 <? d0
    then Fatal {| heap := heap w;
                  output := output w ++
                    [Printf stderr
                       "*** Error: c^2 (square of sound speed) = %e in ComputeMachNumber. V = %e, %e, %e, %e, %e.\n"
                       [c2; rho; u; v; w3; p]] |}
    else Done (dsqrt (u * u + v * v + w3 * w3) / dsqrt c2) w.
Proof.
  intros rho u v w3 p c2. subst rho u v w3 p c2. unfold c2_of. run.
  match goal with |- context [if ?c then _ else _] => destruct c end;
    reflexivity.
Qed.

End Generic.

(** ** Clipping, for any arithmetic *)

Section Clipping.
Context {T : Type} `{Scalar T}.
Local Open Scope dbl_scope.

(** When neither test holds on entry, nothing is written or printed: this
    is so for every object, whatever its relations, and whatever [U]. *)
Lemma ClipDensityAndPressure_no_clamp (this : VarFcn T) (V U : ptr) (w : world T) :
  (cell w V 0 <? rhomin this) = false ->
  (cell w V 4 <? pmin this) = false ->
  ClipDensityAndPressure this V U w = Done false w.
Proof.
  unfold cell. intros E0 E4. run. rewrite E0. cbn. rewrite E4. reflexivity.
Qed.

Variables (r : Relations T) (data : MaterialModelData T) (vb : bool).

(** The call on a variant: its answer, the five cells of [V] afterwards,
    and [U] when a clamp fired and [U] was supplied. *)
Lemma ClipDensityAndPressure_Variant (V U : ptr) (w : world T) :
  let f := Variant r data vb in
  let rho := cell w V 0 in
  let p := cell w V 4 in
  let clip := ((rho <? rhomin f) || (p <? pmin f))%bool in
  U = 0%Z \/ disjoint V U ->
  exists w1,
    ClipDensityAndPressure f V U w = Done clip w1 /\
    cell w1 V 0 = (if rho <? rhomin f then rhomin f else rho) /\
    cell w1 V 1 = cell w V 1 /\
    cell w1 V 2 = cell w V 2 /\
    cell w1 V 3 = cell w V 3 /\
    cell w1 V 4 = (if p <? pmin f then pmin f else p) /\
    (clip = true -> U <> 0%Z ->
     state w1 U = conservative_of r (state w1 V)).
Proof.
  intros f rho p clip D. subst f rho p clip. unfold state, conservative_of.
  run.
  destruct vb;
    (destruct D as [->|D];
     [ | destruct (Z.eqb_spec U 0) as [->|NZ] ]);
    destruct (heap w (V + 0)%Z <? data_rhomin data) eqn:E0; cbn; addr;
    destruct (heap w (V + 4)%Z <? data_pmin data) eqn:E4; cbn; addr;
    eexists; (split; [reflexivity|]); cbn; addr; rewrite ?E0, ?E4;
    repeat split; try reflexivity; try discriminate; try congruence.
Qed.

End Clipping.

(** ** Order on binary64 *)

Module F64.

Lemma SFcompare_antisym (x y : spec_float) :
  SFcompare y x = option_map CompOpp (SFcompare x y).
Proof.
  destruct x as [s1|s1| |s1 m1 e1], y as [s2|s2| |s2 m2 e2]; cbn;
    try reflexivity;
    try (destruct s1; reflexivity); try (destruct s2; reflexivity);
    try (destruct s1, s2; reflexivity).
  rewrite (Z.compare_antisym e2 e1).
  change (PosDef.Pos.compare_cont Eq m1 m2) with (Pos.compare m1 m2).
  change (PosDef.Pos.compare_cont Eq m2 m1) with (Pos.compare m2 m1).
  rewrite (Pos.compare_antisym m2 m1).
  destruct s1, s2; cbn; try reflexivity;
    destruct (e2 ?= e1)%Z; cbn; try reflexivity;
    destruct (m2 ?= m1)%positive; reflexivity.
Qed.

Lemma SFcompare_refl (x : spec_float) :
  SFcompare x x = None \/ SFcompare x x = Some Eq.
Proof.
  destruct x as [s|s| |s m e]; cbn; auto.
  - destruct s; auto.
  - rewrite Z.compare_refl.
    change (PosDef.Pos.compare_cont Eq m m) with (Pos.compare m m).
    rewrite Pos.compare_refl. destruct s; auto.
Qed.

Lemma SFcompare_numbers (a b : spec_float) :
  SFcompare a a = Some Eq -> SFcompare b b = Some Eq ->
  exists c, SFcompare a b = Some c.
Proof.
  destruct a, b; cbn; intros; try discriminate; eauto.
Qed.

Lemma is_number_compare (x : float) :
  is_number x -> SFcompare (Prim2SF x) (Prim2SF x) = Some Eq.
Proof.
  unfold is_number, is_nan. rewrite eqb_spec. unfold SFeqb.
  destruct (SFcompare_refl (Prim2SF x)) as [E|E]; rewrite E; cbn; congruence.
Qed.

(** [x < x] never holds, NaN included. *)
Lemma lt_irrefl (x : float) : (x <? x)%D = false.
Proof.
  change (PrimFloat.ltb x x = false). rewrite ltb_spec. unfold SFltb.
  destruct (SFcompare_refl (Prim2SF x)) as [E|E]; rewrite E; reflexivity.
Qed.

(** [y <= x] excludes [x < y]. *)
Lemma le_not_lt (x y : float) : (y <=? x)%D = true -> (x <? y)%D = false.
Proof.
  change (PrimFloat.leb y x = true -> PrimFloat.ltb x y = false).
  rewrite ltb_spec, leb_spec. unfold SFltb, SFleb.
  rewrite (SFcompare_antisym (Prim2SF x) (Prim2SF y)).
  destruct (SFcompare (Prim2SF x) (Prim2SF y)) as [[| |]|]; cbn; congruence.
Qed.

Lemma le_refl (x : float) : is_number x -> (x <=? x)%D = true.
Proof.
  intros N. change (PrimFloat.leb x x = true).
  rewrite leb_spec. unfold SFleb.
  rewrite (is_number_compare x N). reflexivity.
Qed.

(** On numbers the order is total. *)
Lemma not_lt_le (x y : float) :
  is_number x -> is_number y -> (x <? y)%D = false -> (y <=? x)%D = true.
Proof.
  intros Nx Ny.
  change (PrimFloat.ltb x y = false -> PrimFloat.leb y x = true).
  rewrite ltb_spec, leb_spec. unfold SFltb, SFleb.
  rewrite (SFcompare_antisym (Prim2SF x) (Prim2SF y)).
  destruct (SFcompare_numbers _ _ (is_number_compare x Nx)
              (is_number_compare y Ny)) as [c E].
  rewrite E. destruct c; cbn; congruence.
Qed.

End F64.

(** ** Clipping on doubles *)

Section ClippingDoubles.
Local Open Scope dbl_scope.

Variables (r : Relations float) (data : MaterialModelData float) (vb : bool).

(** C3 (amended): [V] and [U] are two buffers that do not overlap (or [U]
    is not supplied).  Then [ClipDensityAndPressure] returns; afterwards
    neither [rho < rhomin] nor [p < pmin] holds, and [rho >= rhomin] (resp.
    [p >= pmin]) holds when the density (resp. pressure) on entry and its
    floor are numbers; the answer is [true] exactly when [rho < rhomin] or
    [p < pmin] held on entry; and when it is [true] and [U] was supplied,
    [U] holds what [PrimitiveToConservative] computes from the clamped [V]. *)
Theorem clip_enforces_floors (V U : ptr) (w : world float) :
  let f := Variant r data vb in
  let rho := cell w V 0 in
  let p := cell w V 4 in
  U = 0%Z \/ disjoint V U ->
  exists clip w1,
    ClipDensityAndPressure f V U w = Done clip w1 /\
    (cell w1 V 0 <? rhomin f) = false /\
    (cell w1 V 4 <? pmin f) = false /\
    (is_number rho -> is_number (rhomin f) ->
     (rhomin f <=? cell w1 V 0) = true) /\
    (is_number p -> is_number (pmin f) ->
     (pmin f <=? cell w1 V 4) = true) /\
    (clip = true <-> (rho <? rhomin f) = true \/ (p <? pmin f) = true) /\
    (clip = true -> U <> 0%Z ->
     forall U', disjoint V U' ->
     exists w2, PrimitiveToConservative f V U' w1 = Done tt w2 /\
                state w2 U' = state w1 U).
Proof.
  intros f rho p D.
  destruct (ClipDensityAndPressure_Variant r data vb V U w D)
    as (w1 & E & C0 & _ & _ & _ & C4 & CU).
  fold f rho p in E, C0, C4, CU.
  exists ((rho <? rhomin f) || (p <? pmin f))%bool, w1.
  split; [exact E|]. repeat apply conj.
  - rewrite C0. destruct (rho <? rhomin f) eqn:L;
      [apply F64.lt_irrefl | exact L].
  - rewrite C4. destruct (p <? pmin f) eqn:L;
      [apply F64.lt_irrefl | exact L].
  - intros Nrho Nrm. rewrite C0. destruct (rho <? rhomin f) eqn:L.
    + now apply F64.le_refl.
    + now apply F64.not_lt_le.
  - intros Np Npm. rewrite C4. destruct (p <? pmin f) eqn:L.
    + now apply F64.le_refl.
    + now apply F64.not_lt_le.
  - apply orb_true_iff.
  - apply orb_true_iff.
  - intros Hc NZ U' D'.
    destruct (PrimitiveToConservative_Variant r data vb V U' w1 D')
      as (w2 & E2 & S2 & _).
    exists w2. split; [exact E2|].
    rewrite S2. symmetry. now apply CU.
Qed.

(** C4: with [V] and [U] not overlapping (or [U] not supplied), a second
    call right after the first answers [false] and leaves the world of the
    first call as it is: same [V], same [U], nothing printed. *)
Theorem clip_twice_is_clip_once (V U : ptr) (w : world float) :
  let f := Variant r data vb in
  U = 0%Z \/ disjoint V U ->
  exists clip w1,
    ClipDensityAndPressure f V U w = Done clip w1 /\
    ClipDensityAndPressure f V U w1 = Done false w1.
Proof.
  intros f D.
  destruct (ClipDensityAndPressure_Variant r data vb V U w D)
    as (w1 & E & C0 & _ & _ & _ & C4 & _).
  fold f in E, C0, C4.
  do 2 eexists. split; [exact E|].
  apply ClipDensityAndPressure_no_clamp.
  - rewrite C0. destruct (cell w V 0 <? rhomin f) eqn:L;
      [apply F64.lt_irrefl | exact L].
  - rewrite C4. destruct (cell w V 4 <? pmin f) eqn:L;
      [apply F64.lt_irrefl | exact L].
Qed.

(** C10: with [V] and [U] not overlapping (or [U] not supplied), the call
    leaves [V[1]], [V[2]] and [V[3]] as they were; and when [rho >= rhomin]
    and [p >= pmin] on entry it answers [false] and the whole world, [V] and
    [U] included, is unchanged. *)
Theorem clip_frame (V U : ptr) (w : world float) :
  let f := Variant r data vb in
  U = 0%Z \/ disjoint V U ->
  exists clip w1,
    ClipDensityAndPressure f V U w = Done clip w1 /\
    cell w1 V 1 = cell w V 1 /\
    cell w1 V 2 = cell w V 2 /\
    cell w1 V 3 = cell w V 3 /\
    ((rhomin f <=? cell w V 0) = true -> (pmin f <=? cell w V 4) = true ->
     clip = false /\ w1 = w).
Proof.
  intros f D.
  destruct (ClipDensityAndPressure_Variant r data vb V U w D)
    as (w1 & E & _ & C1 & C2 & C3 & _ & _).
  fold f in E.
  do 2 eexists. split; [exact E|]. repeat (split; [assumption|]).
  intros G0 G4.
  apply F64.le_not_lt in G0. apply F64.le_not_lt in G4.
  pose proof (ClipDensityAndPressure_no_clamp f V U w G0 G4) as E'.
  rewrite E in E'. injection E' as Ec Ew. split; assumption.
Qed.

End ClippingDoubles.

(** ** Round trips *)

Section Roundtrip.
Context {T : Type} `{Scalar T}.
Local Open Scope dbl_scope.

Variables (r : Relations T) (data : MaterialModelData T) (vb : bool).

(** Primitive to conservative and back, through buffers that do not
    overlap: both calls return, and the values are those of the two
    transforms composed. *)
Lemma PrimitiveToConservative_and_back (A B C : ptr) (w : world T) :
  let f := Variant r data vb in
  disjoint A B -> disjoint B C ->
  exists w1 w2,
    PrimitiveToConservative f A B w = Done tt w1 /\
    ConservativeToPrimitive f B C w1 = Done tt w2 /\
    state w2 C = primitive_of r (conservative_of r (state w A)).
Proof.
  intros f D1 D2.
  destruct (PrimitiveToConservative_Variant r data vb A B w D1)
    as (w1 & E1 & S1 & _).
  destruct (ConservativeToPrimitive_Variant r data vb B C w1 D2)
    as (w2 & E2 & S2 & _).
  exists w1, w2. repeat split; try assumption. now rewrite S2, S1.
Qed.

Lemma ConservativeToPrimitive_and_back (A B C : ptr) (w : world T) :
  let f := Variant r data vb in
  disjoint A B -> disjoint B C ->
  exists w1 w2,
    ConservativeToPrimitive f A B w = Done tt w1 /\
    PrimitiveToConservative f B C w1 = Done tt w2 /\
    state w2 C = conservative_of r (primitive_of r (state w A)).
Proof.
  intros f D1 D2.
  destruct (ConservativeToPrimitive_Variant r data vb A B w D1)
    as (w1 & E1 & S1 & _).
  destruct (PrimitiveToConservative_Variant r data vb B C w1 D2)
    as (w2 & E2 & S2 & _).
  exists w1, w2. repeat split; try assumption. now rewrite S2, S1.
Qed.

Lemma density_of_state (w : world T) (p : ptr) :
  density_of (state w p) = cell w p 0.
Proof. reflexivity. Qed.

(** The density goes through both transforms untouched, in any
    arithmetic. *)
Lemma density_roundtrip (w : world T) (p : ptr) :
  density_of (primitive_of r (conservative_of r (state w p))) = cell w p 0 /\
  density_of (conservative_of r (primitive_of r (state w p))) = cell w p 0.
Proof. split; reflexivity. Qed.

End Roundtrip.

(** ** Exact arithmetic *)

Section Exact.
Local Open Scope R_scope.

Variable r : Relations R.

Lemma primitive_of_conservative_of (rho u v w3 p : R) :
  rho <> 0 -> mutual_inverses_at r rho ->
  primitive_of r (conservative_of r [rho; u; v; w3; p]) = [rho; u; v; w3; p].
Proof.
  intros N [I _]. unfold primitive_of, conservative_of. cbn.
  repeat (f_equal; try (field; assumption)).
  transitivity (pressure r rho (energy r rho p)); [|apply I].
  f_equal. field. assumption.
Qed.

Lemma conservative_of_primitive_of (U0 U1 U2 U3 U4 : R) :
  U0 <> 0 -> mutual_inverses_at r U0 ->
  conservative_of r (primitive_of r [U0; U1; U2; U3; U4]) = [U0; U1; U2; U3; U4].
Proof.
  intros N [_ I]. unfold primitive_of, conservative_of. cbn.
  rewrite I.
  repeat (f_equal; try (field; assumption)).
Qed.

Lemma R_leb_of_pos (x : R) : 0 < x -> R_leb x 0 = false.
Proof. intros P. unfold R_leb. destruct (Rle_dec x 0); [lra|reflexivity]. Qed.

End Exact.

(** ** Clipping, then back to primitive variables *)

Section ClipAndBack.
Context {T : Type} `{Scalar T}.

Variables (r : Relations T) (data : MaterialModelData T) (vb : bool).

Lemma clip_then_ConservativeToPrimitive (V U C : ptr) (w w1 : world T) :
  let f := Variant r data vb in
  U <> 0%Z -> disjoint V U -> disjoint U C ->
  ClipDensityAndPressure f V U w = Done true w1 ->
  exists w2,
    ConservativeToPrimitive f U C w1 = Done tt w2 /\
    state w2 C = primitive_of r (conservative_of r (state w1 V)).
Proof.
  intros f NZ D1 D2 E.
  destruct (ClipDensityAndPressure_Variant r data vb V U w (or_intror D1))
    as (w1' & E' & _ & _ & _ & _ & _ & CU).
  fold f in E'. rewrite E in E'. injection E' as Ec Ew. subst w1'.
  symmetry in Ec. specialize (CU Ec NZ).
  destruct (ConservativeToPrimitive_Variant r data vb U C w1 D2)
    as (w2 & E2 & S2 & _).
  exists w2. split; [exact E2|]. now rewrite S2, CU.
Qed.

End ClipAndBack.

(** ** Round trips and squares: any arithmetic, and exact arithmetic *)

(** C2 (amended): through buffers that do not overlap, primitive to
    conservative and back (and conservative to primitive and back) always
    returns and reproduces the density, in any arithmetic; in exact
    arithmetic, when the density is not zero and the material's pressure and
    energy relations undo one another at that density, it reproduces the
    whole state. *)
Theorem roundtrip :
  (forall (T : Type) (S : Scalar T) (r : Relations T)
          (data : MaterialModelData T) (vb : bool)
          (A B C : ptr) (w : world T),
     let f := Variant r data vb in
     disjoint A B -> disjoint B C ->
     (exists w1 w2,
        PrimitiveToConservative f A B w = Done tt w1 /\
        ConservativeToPrimitive f B C w1 = Done tt w2 /\
        cell w2 C 0 = cell w A 0) /\
     (exists w1 w2,
        ConservativeToPrimitive f A B w = Done tt w1 /\
        PrimitiveToConservative f B C w1 = Done tt w2 /\
        cell w2 C 0 = cell w A 0)) /\
  (forall (r : Relations R) (data : MaterialModelData R) (vb : bool)
          (A B C : ptr) (w : world R),
     let f := Variant r data vb in
     disjoint A B -> disjoint B C ->
     cell w A 0 <> 0%R -> mutual_inverses_at r (cell w A 0) ->
     (exists w1 w2,
        PrimitiveToConservative f A B w = Done tt w1 /\
        ConservativeToPrimitive f B C w1 = Done tt w2 /\
        state w2 C = state w A) /\
     (exists w1 w2,
        ConservativeToPrimitive f A B w = Done tt w1 /\
        PrimitiveToConservative f B C w1 = Done tt w2 /\
        state w2 C = state w A)).
Proof.
  split.
  - intros T S r data vb A B C w f D1 D2. split.
    + destruct (PrimitiveToConservative_and_back r data vb A B C w D1 D2)
        as (w1 & w2 & E1 & E2 & St).
      exists w1, w2. repeat split; try assumption.
      rewrite <- density_of_state, St. reflexivity.
    + destruct (ConservativeToPrimitive_and_back r data vb A B C w D1 D2)
        as (w1 & w2 & E1 & E2 & St).
      exists w1, w2. repeat split; try assumption.
      rewrite <- density_of_state, St. reflexivity.
  - intros r data vb A B C w f D1 D2 N I. split.
    + destruct (PrimitiveToConservative_and_back r data vb A B C w D1 D2)
        as (w1 & w2 & E1 & E2 & St).
      exists w1, w2. repeat split; try assumption.
      rewrite St. now apply primitive_of_conservative_of.
    + destruct (ConservativeToPrimitive_and_back r data vb A B C w D1 D2)
        as (w1 & w2 & E1 & E2 & St).
      exists w1, w2. repeat split; try assumption.
      rewrite St. now apply conservative_of_primitive_of.
Qed.

(** C5 (amended): when [ClipDensityAndPressure] answers [true] with a
    buffer [U] that does not overlap [V], [ConservativeToPrimitive] of [U]
    returns and reproduces the density of the clamped [V], in any arithmetic;
    in exact arithmetic, when that density is not zero and the material's
    pressure and energy relations undo one another at it, it reproduces the
    whole clamped [V]. *)
Theorem clip_then_back :
  (forall (T : Type) (S : Scalar T) (r : Relations T)
          (data : MaterialModelData T) (vb : bool)
          (V U C : ptr) (w w1 : world T),
     let f := Variant r data vb in
     U <> 0%Z -> disjoint V U -> disjoint U C ->
     ClipDensityAndPressure f V U w = Done true w1 ->
     exists w2,
       ConservativeToPrimitive f U C w1 = Done tt w2 /\
       cell w2 C 0 = cell w1 V 0) /\
  (forall (r : Relations R) (data : MaterialModelData R) (vb : bool)
          (V U C : ptr) (w w1 : world R),
     let f := Variant r data vb in
     U <> 0%Z -> disjoint V U -> disjoint U C ->
     ClipDensityAndPressure f V U w = Done true w1 ->
     cell w1 V 0 <> 0%R -> mutual_inverses_at r (cell w1 V 0) ->
     exists w2,
       ConservativeToPrimitive f U C w1 = Done tt w2 /\
       state w2 C = state w1 V).
Proof.
  split.
  - intros T S r data vb V U C w w1 f NZ D1 D2 E.
    destruct (clip_then_ConservativeToPrimitive r data vb V U C w w1 NZ D1 D2 E)
      as (w2 & E2 & St).
    exists w2. split; [exact E2|].
    rewrite <- density_of_state, St. reflexivity.
  - intros r data vb V U C w w1 f NZ D1 D2 E N I.
    destruct (clip_then_ConservativeToPrimitive r data vb V U C w w1 NZ D1 D2 E)
      as (w2 & E2 & St).
    exists w2. split; [exact E2|].
    rewrite St. now apply primitive_of_conservative_of.
Qed.

(** C6 (amended): on a variant, [ComputeSoundSpeedSquare] returns
    [GetDpdrho + GetPressure / rho * GetBigGamma] on every input, with no
    fatal path; [ComputeSoundSpeed] exits exactly when that value is [<= 0]
    and otherwise returns its square root, in any arithmetic.  In exact
    arithmetic the square of what [ComputeSoundSpeed] returns is what
    [ComputeSoundSpeedSquare] returns, whenever that is [> 0]. *)
Theorem sound_speed_and_its_square :
  (forall (T : Type) (S : Scalar T) (r : Relations T)
          (data : MaterialModelData T) (vb : bool)
          (rho e : T) (w : world T),
     let f := Variant r data vb in
     let c2 := (dpdrho r rho e + pressure r rho e / rho * bigGamma r rho e)%D in
     ComputeSoundSpeedSquare f rho e w = Done c2 w /\
     ((exists w', ComputeSoundSpeed f rho e w = Fatal w' /\ heap w' = heap w)
      <-> (c2 <=? d0)%D = true) /\
     ((c2 <=? d0)%D = false ->
      ComputeSoundSpeed f rho e w = Done (dsqrt c2) w)) /\
  (forall (r : Relations R) (data : MaterialModelData R) (vb : bool)
          (rho e : R) (w : world R),
     let f := Variant r data vb in
     forall c2, ComputeSoundSpeedSquare f rho e w = Done c2 w -> (0 < c2)%R ->
     exists c, ComputeSoundSpeed f rho e w = Done c w /\ (c * c)%R = c2).
Proof.
  split.
  - intros T S r data vb rho e w f c2.
    destruct (sound_speed_of_variant r data vb rho e w) as [E1 E2].
    fold f in E1, E2. change (c2_of r rho e) with c2 in E1, E2.
    split; [exact E1|]. split; [split|].
    + intros (w' & E & _). rewrite E in E2.
      destruct (c2 <=? d0)%D; [reflexivity|discriminate].
    + intros L. rewrite L in E2. eexists. split; [exact E2|reflexivity].
    + intros L. rewrite L in E2. exact E2.
  - intros r data vb rho e w f c2 E P.
    destruct (sound_speed_of_variant r data vb rho e w) as [E1 E2].
    fold f in E1, E2. rewrite E in E1. injection E1 as Ec. subst c2.
    assert (L : (c2_of r rho e <=? d0)%D = false)
      by (apply R_leb_of_pos; exact P).
    rewrite L in E2.
    exists (R_sqrt.sqrt (c2_of r rho e)). split; [exact E2|].
    apply sqrt_sqrt. apply Rlt_le. exact P.
Qed.

(** ** The Mach number at a vanishing sound speed *)

(** C1: a perfect gas ([gamma = 1.4]) at zero pressure: the state
    [V = (1, 1, 0, 0, 0)] has [e = 0] and [c2 = 0], so [c2 <= 0] holds, and
    [ComputeSoundSpeed] exits there; [ComputeMachNumber] tests [c2 < 0]
    only, does not exit, and returns [1 / 0 = infinity]. *)
Theorem mach_number_at_zero_sound_speed :
  let f := Variant (perfect_gas 1.4%float) (floors 1e-6%float 1e-6%float) false in
  let w := world_VU [1; 1; 0; 0; 0]%float [0; 0; 0; 0; 0]%float in
  GetInternalEnergyPerUnitMass f (cell w 8 0) (cell w 8 4) w = Done 0%float w /\
  ComputeSoundSpeedSquare f (cell w 8 0) 0%float w = Done 0%float w /\
  (0 <=? 0)%float = true /\
  (exists w', ComputeSoundSpeed f (cell w 8 0) 0%float w = Fatal w') /\
  ComputeMachNumber f 8 w = Done infinity w.
Proof.
  intros f w. repeat split; try (vm_compute; reflexivity).
  eexists. vm_compute. reflexivity.
Qed.


(** ** What rounding and a zero density do *)

(** The spec's scenario A on doubles: the perfect gas with [gamma = 1.4]
    and [V = (1, 0, 0, 0, 1)]; here no operation rounds the wrong way and
    the state comes back bit for bit. *)
Example roundtrip_scenario_A_on_doubles :
  let f := Variant (perfect_gas 1.4%float) (floors 1e-6%float 1e-6%float) false in
  let w := world_VU [1; 0; 0; 0; 1]%float [0; 0; 0; 0; 0]%float in
  exists w1 w2,
    PrimitiveToConservative f 8 16 w = Done tt w1 /\
    ConservativeToPrimitive f 16 8 w1 = Done tt w2 /\
    state w2 8 = state w 8.
Proof.
  intros f w. do 2 eexists.
  split; [vm_compute; reflexivity|].
  split; vm_compute; reflexivity.
Qed.

(** C3, as stated, fails on doubles: a density that is NaN is below no
    floor, so it is not clamped, and it is not [>=] the floor either. *)
Lemma clip_passes_nan :
  let f := Variant (perfect_gas 1.4%float) (floors 1e-6%float 1e-6%float) false in
  let w := world_VU [nan; 0; 0; 0; 1]%float [0; 0; 0; 0; 0]%float in
  ClipDensityAndPressure f 8 16 w = Done false w /\
  (rhomin f <=? cell w 8 0)%D = false.
Proof.
  intros f w. split; vm_compute; reflexivity.
Qed.

(** C2, as stated, fails on doubles: with a material whose two relations
    undo one another for every double, and [rho = 49 > 0], the state
    [V = (49, 1, 0, 0, 1)] comes back as [(49, 1 - 2^-53, 0, 0, 1)]: the
    momentum [49] times the rounded [1/49] is not [1]. *)
Lemma roundtrip_inexact_on_doubles :
  let r := pressure_is_energy in
  let f := Variant r (floors 1e-6%float 1e-6%float) false in
  let w := world_VU [49; 1; 0; 0; 1]%float [0; 0; 0; 0; 0]%float in
  (d0 <? cell w 8 0)%D = true /\
  (forall rho, mutual_inverses_at r rho) /\
  exists w1 w2,
    PrimitiveToConservative f 8 16 w = Done tt w1 /\
    ConservativeToPrimitive f 16 8 w1 = Done tt w2 /\
    state w 8 = [49; 1; 0; 0; 1]%float /\
    state w2 8 = [49; 0x1.fffffffffffffp-1; 0; 0; 1]%float /\
    state w2 8 <> state w 8.
Proof.
  intros r f w. split; [reflexivity|]. split; [split; reflexivity|].
  do 2 eexists.
  split; [vm_compute; reflexivity|].
  split; [vm_compute; reflexivity|].
  split; [reflexivity|]. split; [vm_compute; reflexivity|].
  intros E. apply (f_equal second_entry) in E. vm_compute in E. discriminate E.
Qed.

(** C6, as stated, fails on doubles: for the perfect gas with [gamma = 2]
    at [(rho, e) = (1, 1)], [ComputeSoundSpeedSquare] returns [2 > 0] and
    [ComputeSoundSpeed] returns the double nearest to the square root of 2,
    whose square is the next double after [2]. *)
Lemma sound_speed_square_inexact_on_doubles :
  let f := Variant (perfect_gas 2%float) (floors 1e-6%float 1e-6%float) false in
  let w := world_VU [] [] in
  ComputeSoundSpeedSquare f 1%float 1%float w = Done 2%float w /\
  (0 <? 2)%float = true /\
  exists c,
    ComputeSoundSpeed f 1%float 1%float w = Done c w /\
    (c * c)%float = 0x1.0000000000001p+1%float /\
    (c * c =? 2)%float = false.
Proof.
  intros f w. split; [vm_compute; reflexivity|]. split; [reflexivity|].
  eexists. split; [vm_compute; reflexivity|].
  split; vm_compute; reflexivity.
Qed.

(** C5, as stated, fails on doubles, in two ways, with a material whose two
    relations undo one another for every double.  With floors [(0, 0)] the
    state [(-1, 1, 0, 0, 1)] is clamped to density [0]; [U] is all zeros and
    [ConservativeToPrimitive] divides by zero: the velocities and the
    pressure come back as NaN.  With floors [(49, 1e-6)] the state
    [(1, 1, 0, 0, 1)] is clamped to density [49] and comes back with the
    velocity [1 - 2^-53]. *)
Lemma clip_then_back_inexact_on_doubles :
  let r := pressure_is_energy in
  (forall rho, mutual_inverses_at r rho) /\
  (let f := Variant r (floors 0%float 0%float) false in
   let w := world_VU [-1; 1; 0; 0; 1]%float [0; 0; 0; 0; 0]%float in
   exists w1 w2,
     ClipDensityAndPressure f 8 16 w = Done true w1 /\
     ConservativeToPrimitive f 16 24 w1 = Done tt w2 /\
     state w1 8 = [0; 1; 0; 0; 1]%float /\
     state w2 24 = [0; nan; nan; nan; nan]%float /\
     state w2 24 <> state w1 8) /\
  (let f := Variant r (floors 49%float 1e-6%float) false in
   let w := world_VU [1; 1; 0; 0; 1]%float [0; 0; 0; 0; 0]%float in
   exists w1 w2,
     ClipDensityAndPressure f 8 16 w = Done true w1 /\
     ConservativeToPrimitive f 16 24 w1 = Done tt w2 /\
     state w1 8 = [49; 1; 0; 0; 1]%float /\
     state w2 24 = [49; 0x1.fffffffffffffp-1; 0; 0; 1]%float /\
     state w2 24 <> state w1 8).
Proof.
  intros r. split; [split; reflexivity|].
  split; intros f w; do 2 eexists;
    (split; [vm_compute; reflexivity|]);
    (split; [vm_compute; reflexivity|]);
    (split; [vm_compute; reflexivity|]);
    (split; [vm_compute; reflexivity|]);
    intros E; apply (f_equal second_entry) in E; vm_compute in E;
    discriminate E.
Qed.

(** ** The theorems at concrete inputs *)

Lemma perfect_gas_inverses (gamma rho : R) :
  (gamma <> 1)%R -> (rho <> 0)%R -> mutual_inverses_at (perfect_gas gamma) rho.
Proof.
  intros G N. split; intros x; cbn; field; split; (assumption || lra).
Qed.

(** The spec's scenario B: [V = (1e-8, 0, 0, 0, 1e-8)] under the floors
    [(1e-6, 1e-6)] is clamped to the floors. *)
Lemma clip_enforces_floors_scenario_B :
  let f := Variant (perfect_gas 1.4%float) (floors 1e-6%float 1e-6%float) true in
  let w := world_VU [1e-8; 0; 0; 0; 1e-8]%float [0; 0; 0; 0; 0]%float in
  disjoint 8 16 /\
  exists clip w1,
    ClipDensityAndPressure f 8 16 w = Done clip w1 /\
    (cell w1 8 0 <? rhomin f)%D = false /\
    (cell w1 8 4 <? pmin f)%D = false /\
    (rhomin f <=? cell w1 8 0)%D = true /\
    (pmin f <=? cell w1 8 4)%D = true /\
    clip = true /\
    forall U', disjoint 8 U' ->
    exists w2, PrimitiveToConservative f 8 U' w1 = Done tt w2 /\
               state w2 U' = state w1 16.
Proof.
  intros f w.
  assert (D : disjoint 8 16) by (unfold disjoint; lia).
  split; [exact D|].
  destruct (clip_enforces_floors (perfect_gas 1.4%float)
              (floors 1e-6%float 1e-6%float) true 8 16 w (or_intror D))
    as (clip & w1 & E & L0 & L4 & G0 & G4 & Hc & HU).
  assert (C : clip = true) by (apply Hc; left; reflexivity).
  exists clip, w1. repeat (split; [assumption|]).
  split; [apply G0; reflexivity|].
  split; [apply G4; reflexivity|].
  split; [exact C|].
  apply HU; [exact C | lia].
Defined.

Lemma clip_twice_is_clip_once_scenario_B :
  let f := Variant (perfect_gas 1.4%float) (floors 1e-6%float 1e-6%float) true in
  let w := world_VU [1e-8; 0; 0; 0; 1e-8]%float [0; 0; 0; 0; 0]%float in
  disjoint 8 16 /\
  exists clip w1,
    ClipDensityAndPressure f 8 16 w = Done clip w1 /\
    ClipDensityAndPressure f 8 16 w1 = Done false w1.
Proof.
  intros f w.
  assert (D : disjoint 8 16) by (unfold disjoint; lia).
  split; [exact D|].
  exact (clip_twice_is_clip_once (perfect_gas 1.4%float)
           (floors 1e-6%float 1e-6%float) true 8 16 w (or_intror D)).
Defined.

(** A state above the floors is left alone. *)
Lemma clip_frame_above_floors :
  let f := Variant (perfect_gas 1.4%float) (floors 1e-6%float 1e-6%float) true in
  let w := world_VU [1; 2; 3; 4; 1]%float [5; 6; 7; 8; 9]%float in
  disjoint 8 16 /\
  (rhomin f <=? cell w 8 0)%D = true /\
  (pmin f <=? cell w 8 4)%D = true /\
  exists clip w1,
    ClipDensityAndPressure f 8 16 w = Done clip w1 /\
    cell w1 8 1 = cell w 8 1 /\
    cell w1 8 2 = cell w 8 2 /\
    cell w1 8 3 = cell w 8 3 /\
    clip = false /\ w1 = w.
Proof.
  intros f w.
  assert (D : disjoint 8 16) by (unfold disjoint; lia).
  split; [exact D|]. split; [reflexivity|]. split; [reflexivity|].
  destruct (clip_frame (perfect_gas 1.4%float)
              (floors 1e-6%float 1e-6%float) true 8 16 w (or_intror D))
    as (clip & w1 & E & C1 & C2 & C3 & Hb).
  exists clip, w1. repeat (split; [assumption|]).
  apply Hb; reflexivity.
Defined.

(** The spec's scenario A in exact arithmetic: the perfect gas with
    [gamma = 1.4] and [V = (1, 0, 0, 0, 1)]. *)
Lemma roundtrip_scenario_A :
  let f := Variant (perfect_gas (14 / 10)%R)
             (floors (1 / 1000000)%R (1 / 1000000)%R) false in
  let w := world_VU [1; 0; 0; 0; 1]%R [0; 0; 0; 0; 0]%R in
  cell w 8 0 <> 0%R /\
  exists w1 w2,
    PrimitiveToConservative f 8 16 w = Done tt w1 /\
    ConservativeToPrimitive f 16 8 w1 = Done tt w2 /\
    state w2 8 = state w 8.
Proof.
  intros f w.
  assert (D : disjoint 8 16) by (unfold disjoint; lia).
  assert (D' : disjoint 16 8) by (unfold disjoint; lia).
  assert (N : cell w 8 0 <> 0%R) by (cbn; lra).
  split; [exact N|].
  refine (proj1 (proj2 roundtrip (perfect_gas (14 / 10)%R) _ false 8%Z 16%Z 8%Z w
                  D D' N _)).
  apply perfect_gas_inverses; [lra | exact N].
Defined.

Lemma sound_speed_and_its_square_at_2 :
  let f := Variant (perfect_gas 2%R)
             (floors (1 / 1000000)%R (1 / 1000000)%R) false in
  let w := world_VU [] [] in
  ComputeSoundSpeedSquare f 1%R 1%R w = Done 2%R w /\
  exists c, ComputeSoundSpeed f 1%R 1%R w = Done c w /\ (c * c)%R = 2%R.
Proof.
  intros f w.
  assert (E : ComputeSoundSpeedSquare f 1%R 1%R w = Done 2%R w).
  { unfold f. unfold ComputeSoundSpeedSquare, bind, ret. cbn.
    f_equal. field. }
  split; [exact E|].
  refine (proj2 sound_speed_and_its_square (perfect_gas 2%R) _ false
            1%R 1%R w 2%R E _).
  lra.
Defined.

(** In exact arithmetic: the density [1/2] is clamped to the floor [1],
    and [U] gives the clamped state back. *)
Lemma clip_then_back_below_floor :
  let f := Variant (perfect_gas (14 / 10)%R) (floors 1%R 1%R) false in
  let w := world_VU [1 / 2; 3; 0; 0; 1 / 2]%R [0; 0; 0; 0; 0]%R in
  exists w1 w2,
    ClipDensityAndPressure f 8 16 w = Done true w1 /\
    cell w1 8 0 <> 0%R /\
    ConservativeToPrimitive f 16 24 w1 = Done tt w2 /\
    state w2 24 = state w1 8.
Proof.
  intros f w.
  assert (D : disjoint 8 16) by (unfold disjoint; lia).
  assert (D' : disjoint 16 24) by (unfold disjoint; lia).
  assert (NZ : 16%Z <> 0%Z) by lia.
  destruct (ClipDensityAndPressure_Variant (perfect_gas (14 / 10)%R)
              (floors 1%R 1%R) false 8 16 w (or_intror D))
    as (w1 & E & C0 & _).
  fold f in E, C0.
  assert (L : (cell w 8 0 <? rhomin f)%D = true).
  { cbn. unfold R_ltb. destruct (Rlt_dec (1 / 2) 1); [reflexivity | lra]. }
  rewrite L in E, C0. cbn [orb] in E.
  assert (N : cell w1 8 0 <> 0%R) by (rewrite C0; cbn; lra).
  destruct (proj2 clip_then_back (perfect_gas (14 / 10)%R) (floors 1%R 1%R)
              false 8%Z 16%Z 24%Z w w1 NZ D D' E N) as (w2 & E2 & St).
  { apply perfect_gas_inverses; [lra | exact N]. }
  exists w1, w2. repeat split; assumption.
Defined.

(** * Further properties of the code *)

(** ** What the functions touch *)

Section Footprints.
Context {T : Type} `{Scalar T}.
Local Open Scope string_scope.
Local Open Scope dbl_scope.

Variables (r : Relations T) (data : MaterialModelData T) (vb : bool).

(** X1: on a variant, the four derived quantities never write memory,
    whether they return or exit, and print nothing when they return: a call
    that returns leaves the world exactly as it was. *)
Theorem derived_quantities_are_read_only (V : ptr) (rho e : T) (w : world T) :
  let f := Variant r data vb in
  (heap (final_world (ComputeSoundSpeed f rho e w)) = heap w /\
   forall c w', ComputeSoundSpeed f rho e w = Done c w' -> w' = w) /\
  (heap (final_world (ComputeSoundSpeedSquare f rho e w)) = heap w /\
   forall c w', ComputeSoundSpeedSquare f rho e w = Done c w' -> w' = w) /\
  (heap (final_world (ComputeMachNumber f V w)) = heap w /\
   forall m w', ComputeMachNumber f V w = Done m w' -> w' = w) /\
  (heap (final_world (ComputeTotalEnthalpyPerUnitMass f V w)) = heap w /\
   forall h w', ComputeTotalEnthalpyPerUnitMass f V w = Done h w' -> w' = w).
Proof.
  intros f.
  destruct (sound_speed_of_variant r data vb rho e w) as [E2 E1].
  fold f in E1, E2.
  pose proof (ComputeMachNumber_Variant r data vb V w) as EM.
  cbv zeta in EM. fold f in EM.
  repeat apply conj.
  - rewrite E1. destruct (c2_of r rho e <=? d0); reflexivity.
  - intros c w'. rewrite E1. destruct (c2_of r rho e <=? d0); congruence.
  - rewrite E2. reflexivity.
  - intros c w'. rewrite E2. congruence.
  - rewrite EM. match goal with |- context [if ?c then _ else _] =>
      destruct c end; reflexivity.
  - intros m w'. rewrite EM. match goal with |- context [if ?c then _ else _] =>
      destruct c end; congruence.
  - reflexivity.
  - intros h w'. unfold f. run. congruence.
Qed.

(** X2: on a variant, each transform returns, prints nothing and writes
    the five cells of its target only, whether or not the two buffers
    overlap. *)
Theorem transforms_write_their_target_only (V U : ptr) (w : world T) :
  let f := Variant r data vb in
  (exists w',
     PrimitiveToConservative f V U w = Done tt w' /\
     output w' = output w /\
     forall a, (a < U \/ U + 5 <= a)%Z -> heap w' a = heap w a) /\
  (exists w',
     ConservativeToPrimitive f U V w = Done tt w' /\
     output w' = output w /\
     forall a, (a < V \/ V + 5 <= a)%Z -> heap w' a = heap w a).
Proof.
  intros f. split; eexists; (split; [unfold f; run; reflexivity|]);
    (split; [reflexivity|]); intros a Ha; cbn; addr; reflexivity.
Qed.

End Footprints.

(** ** Calling a transform in place *)

Section InPlace.
Context {T : Type} `{Scalar T}.
Local Open Scope dbl_scope.

Variables (r : Relations T) (data : MaterialModelData T) (vb : bool).

(** X3: [ConservativeToPrimitive] may be called in place: with the same
    buffer as source and target it leaves there the very values it leaves
    in a separate target. *)
Theorem ConservativeToPrimitive_in_place (A B : ptr) (w : world T) :
  let f := Variant r data vb in
  disjoint A B ->
  exists w1 w2,
    ConservativeToPrimitive f A A w = Done tt w1 /\
    ConservativeToPrimitive f A B w = Done tt w2 /\
    state w1 A = state w2 B.
Proof.
  intros f D. do 2 eexists.
  split; [unfold f; run; reflexivity|].
  split; [unfold f; run; reflexivity|].
  unfold state, cell. cbn. addr. reflexivity.
Qed.

(** What [PrimitiveToConservative] leaves when its target is its source:
    the momenta are written over the velocities before the energy is
    computed, so the energy is taken from the momenta. *)
Lemma PrimitiveToConservative_same_buffer (A : ptr) (w : world T) :
  let f := Variant r data vb in
  let rho := cell w A 0 in
  let u := cell w A 1 in
  let v := cell w A 2 in
  let w3 := cell w A 3 in
  let e := energy r rho (cell w A 4) in
  exists w1,
    PrimitiveToConservative f A A w = Done tt w1 /\
    state w1 A =
    [rho; rho * u; rho * v; rho * w3;
     rho * (e + dhalf * (rho * u * (rho * u) + rho * v * (rho * v)
                         + rho * w3 * (rho * w3)))].
Proof.
  intros f rho u v w3 e. eexists.
  split; [unfold f; run; reflexivity|].
  unfold state, cell. cbn. addr. reflexivity.
Qed.

End InPlace.

(** X4: [PrimitiveToConservative] must not be called in place.  In exact
    arithmetic, with the same buffer as source and target it leaves the
    density and the momenta of a separate target, but its energy is that of
    a separate target only when the density is [0], or its square is [1], or
    the fluid is at rest. *)
Theorem PrimitiveToConservative_in_place
    (r : Relations R) (data : MaterialModelData R) (vb : bool)
    (A B : ptr) (w : world R) :
  let f := Variant r data vb in
  let rho := cell w A 0 in
  disjoint A B ->
  exists w1 w2,
    PrimitiveToConservative f A A w = Done tt w1 /\
    PrimitiveToConservative f A B w = Done tt w2 /\
    cell w1 A 0 = cell w2 B 0 /\
    cell w1 A 1 = cell w2 B 1 /\
    cell w1 A 2 = cell w2 B 2 /\
    cell w1 A 3 = cell w2 B 3 /\
    (cell w1 A 4 = cell w2 B 4 <->
     (rho = 0 \/ rho * rho = 1 \/
      (cell w A 1 = 0 /\ cell w A 2 = 0 /\ cell w A 3 = 0))%R).
Proof.
  intros f rho D.
  destruct (PrimitiveToConservative_same_buffer r data vb A w)
    as (w1 & E1 & S1).
  destruct (PrimitiveToConservative_Variant r data vb A B w D)
    as (w2 & E2 & S2 & _).
  exists w1, w2. fold f in E1, E2.
  split; [exact E1|]. split; [exact E2|].
  unfold state in S1, S2. cbn [map] in S1, S2.
  unfold conservative_of in S2.
  injection S1 as a0 a1 a2 a3 a4. injection S2 as b0 b1 b2 b3 b4.
  rewrite a0, a1, a2, a3, a4, b0, b1, b2, b3, b4. fold rho.
  repeat (split; [reflexivity|]).
  set (u := cell w A 1). set (v := cell w A 2). set (w3 := cell w A 3).
  set (e := energy r rho (cell w A 4)).
  cbn -[Rmult Rplus Rdiv].
  assert (K : (rho * (e + 1 / 2 * (rho * u * (rho * u) + rho * v * (rho * v)
                                   + rho * w3 * (rho * w3)))
               - rho * (e + 1 / 2 * (u * u + v * v + w3 * w3))
               = 1 / 2 * (rho * (rho * rho - 1) * (u * u + v * v + w3 * w3)))%R)
    by ring.
  split.
  - intros Q.
    assert (Z : (rho * (rho * rho - 1) * (u * u + v * v + w3 * w3) = 0)%R)
      by lra.
    apply Rmult_integral in Z. destruct Z as [Z|Z].
    + apply Rmult_integral in Z. destruct Z as [Z|Z]; [tauto|].
      right; left. lra.
    + right; right.
      pose proof (Rle_0_sqr u). pose proof (Rle_0_sqr v).
      pose proof (Rle_0_sqr w3). unfold Rsqr in *.
      repeat split; apply Rsqr_0_uniq; unfold Rsqr; lra.
  - intros [Z|[Z|(Zu & Zv & Zw)]].
    + rewrite Z. ring.
    + assert (Z' : (rho * rho - 1 = 0)%R) by lra.
      apply Rminus_diag_uniq. rewrite K, Z'. ring.
    + rewrite Zu, Zv, Zw. ring.
Qed.

(** ** Clipping: the relations it needs, and what it prints *)

Section ClipMore.
Context {T : Type} `{Scalar T}.
Local Open Scope string_scope.
Local Open Scope dbl_scope.

(** X5: without a buffer [U] (the null pointer, the default argument)
    [ClipDensityAndPressure] calls no relation: on every object, the base
    class included, it returns; the density and the pressure are clamped to
    the floors of the object and no other cell changes. *)
Theorem clip_without_buffer (this : VarFcn T) (V : ptr) (w : world T) :
  let rho := cell w V 0 in
  let p := cell w V 4 in
  exists w1,
    ClipDensityAndPressure this V 0 w =
      Done ((rho <? rhomin this) || (p <? pmin this))%bool w1 /\
    cell w1 V 0 = (if rho <? rhomin this then rhomin this else rho) /\
    cell w1 V 4 = (if p <? pmin this then pmin this else p) /\
    forall a, a <> (V + 0)%Z -> a <> (V + 4)%Z -> heap w1 a = heap w a.
Proof.
  intros rho p. subst rho p. run.
  destruct (verbose this);
    destruct (heap w (V + 0)%Z <? rhomin this) eqn:E0; cbn; addr;
    destruct (heap w (V + 4)%Z <? pmin this) eqn:E4; cbn; addr;
    eexists; (split; [reflexivity|]); cbn; addr;
    repeat split; try reflexivity;
    intros a N0 N4; apply Z.eqb_neq in N0, N4; rewrite ?N0, ?N4; reflexivity.
Qed.

Variables (data : MaterialModelData T) (vb : bool).

(** X6: on the base class, with a buffer [U] that does not overlap [V],
    [ClipDensityAndPressure] returns [false] and changes nothing when no
    clamp fires.  When a clamp fires it exits in
    [GetInternalEnergyPerUnitMass], half way: [V] is clamped already, the
    density and the momenta of [U] are written already, and the energy of
    [U] is still the old one. *)
Theorem clip_on_base_class (V U : ptr) (w : world T) :
  let f := VarFcnBase data vb in
  let rho := cell w V 0 in
  let p := cell w V 4 in
  let rho' := if rho <? rhomin f then rhomin f else rho in
  let p' := if p <? pmin f then pmin f else p in
  U <> 0%Z -> disjoint V U ->
  if ((rho <? rhomin f) || (p <? pmin f))%bool
  then exists w',
         ClipDensityAndPressure f V U w = Fatal w' /\
         state w' V = [rho'; cell w V 1; cell w V 2; cell w V 3; p'] /\
         state w' U = [rho'; rho' * cell w V 1; rho' * cell w V 2;
                       rho' * cell w V 3; cell w U 4] /\
         last_printed w' =
           Some (Printf stderr
                   "*** Error:  GetInternalEnergyPerUnitMass Function not defined\n"
                   [])
  else ClipDensityAndPressure f V U w = Done false w.
Proof.
  intros f rho p rho' p' NZ D. subst f rho p rho' p'.
  apply Z.eqb_neq in NZ.
  unfold state, last_printed. run. rewrite NZ.
  destruct vb;
    destruct (heap w (V + 0)%Z <? data_rhomin data) eqn:E0; cbn; addr;
    destruct (heap w (V + 4)%Z <? data_pmin data) eqn:E4; cbn; addr;
    try reflexivity;
    eexists; (split; [reflexivity|]); cbn; addr;
    rewrite ?map_app; cbn [map]; rewrite ?last_last;
    repeat split; reflexivity.
Qed.

Variable r : Relations T.

(** X7: what [ClipDensityAndPressure] prints on a variant: nothing when the
    object is not verbose; otherwise one line on the error stream when the
    density is clamped, then one line on the standard output when the
    pressure is clamped, each with the value found and the floor. *)
Theorem clip_diagnostics (V U : ptr) (w : world T) :
  let f := Variant r data vb in
  let rho := cell w V 0 in
  let p := cell w V 4 in
  exists clip w1,
    ClipDensityAndPressure f V U w = Done clip w1 /\
    output w1 =
    (output w
     ++ (if vb && (rho <? rhomin f)
         then [Printf stderr "clip density from %e to %e.\n" [rho; rhomin f]]
         else [])
     ++ (if vb && (p <? pmin f)
         then [Printf stdout "clip pressure from %e to %e\n" [p; pmin f]]
         else []))%list.
Proof.
  intros f rho p. subst f rho p. run.
  destruct vb;
    destruct (heap w (V + 0)%Z <? data_rhomin data) eqn:E0; cbn; addr;
    destruct (heap w (V + 4)%Z <? data_pmin data) eqn:E4; cbn;
    destruct (U =? 0)%Z; cbn;
    do 2 eexists; (split; [reflexivity|]); cbn; addr;
    rewrite <- ?app_assoc, ?app_nil_r; cbn; reflexivity.
Qed.

End ClipMore.

(** ** More on binary64: signs, NaN and division by zero *)

Module F64Arith.

Lemma nan_spec (x : float) : is_nan x = true <-> Prim2SF x = S754_nan.
Proof.
  unfold is_nan. rewrite eqb_spec. unfold SFeqb.
  destruct (Prim2SF x) as [s|s| |s m e]; cbn.
  - split; discriminate.
  - destruct s; split; discriminate.
  - split; reflexivity.
  - rewrite Z.compare_refl.
    change (PosDef.Pos.compare_cont Eq m m) with (Pos.compare m m).
    rewrite Pos.compare_refl. destruct s; split; discriminate.
Qed.

Lemma number_spec (x : float) : is_number x <-> Prim2SF x <> S754_nan.
Proof.
  unfold is_number. rewrite <- nan_spec.
  destruct (is_nan x); split; congruence.
Qed.

(** [x < y] gives [x <= y]. *)
Lemma lt_le (x y : float) : (x <? y)%D = true -> (x <=? y)%D = true.
Proof.
  change (PrimFloat.ltb x y = true -> PrimFloat.leb x y = true).
  rewrite ltb_spec, leb_spec. unfold SFltb, SFleb.
  destruct (SFcompare (Prim2SF x) (Prim2SF y)) as [[| |]|]; congruence.
Qed.

Lemma not_le_not_lt (x y : float) : (x <=? y)%D = false -> (x <? y)%D = false.
Proof.
  intros L. destruct (x <? y)%D eqn:E; [|reflexivity].
  apply lt_le in E. congruence.
Qed.

(** Nothing compares with NaN. *)
Lemma nan_le (x y : float) : is_nan x = true -> (x <=? y)%D = false.
Proof.
  intros N. apply nan_spec in N.
  change (PrimFloat.leb x y = false). rewrite leb_spec, N. reflexivity.
Qed.

Lemma nan_lt (x y : float) : is_nan x = true -> (x <? y)%D = false.
Proof.
  intros N. apply nan_spec in N.
  change (PrimFloat.ltb x y = false). rewrite ltb_spec, N. reflexivity.
Qed.

(** NaN goes through the arithmetic. *)
Lemma div_nan (x y : float) : is_nan y = true -> is_nan (x / y)%D = true.
Proof.
  intros N. apply nan_spec in N. apply nan_spec.
  change (Prim2SF (PrimFloat.div x y) = S754_nan).
  rewrite div_spec, N. destruct (Prim2SF x); reflexivity.
Qed.

Lemma nan_div (x y : float) : is_nan x = true -> is_nan (x / y)%D = true.
Proof.
  intros N. apply nan_spec in N. apply nan_spec.
  change (Prim2SF (PrimFloat.div x y) = S754_nan).
  rewrite div_spec, N. reflexivity.
Qed.

Lemma nan_mul (x y : float) : is_nan x = true -> is_nan (x * y)%D = true.
Proof.
  intros N. apply nan_spec in N. apply nan_spec.
  change (Prim2SF (PrimFloat.mul x y) = S754_nan).
  rewrite mul_spec, N. reflexivity.
Qed.

Lemma add_nan (x y : float) : is_nan y = true -> is_nan (x + y)%D = true.
Proof.
  intros N. apply nan_spec in N. apply nan_spec.
  change (Prim2SF (PrimFloat.add x y) = S754_nan).
  rewrite add_spec, N. destruct (Prim2SF x); reflexivity.
Qed.

Lemma sqrt_nan (x : float) : is_nan x = true -> is_nan (dsqrt x) = true.
Proof.
  intros N. apply nan_spec in N. apply nan_spec.
  change (Prim2SF (PrimFloat.sqrt x) = S754_nan).
  rewrite sqrt_spec, N. reflexivity.
Qed.

(** At or above a positive double there is nothing [<= 0]. *)
Lemma above_positive (a b : float) :
  (d0 <? a)%D = true -> (a <=? b)%D = true -> (b <=? d0)%D = false.
Proof.
  change (PrimFloat.ltb 0 a = true -> PrimFloat.leb a b = true ->
          PrimFloat.leb b 0 = false).
  rewrite ltb_spec, !leb_spec. unfold SFltb, SFleb.
  change (Prim2SF 0) with (S754_zero false).
  destruct (Prim2SF a) as [sa|sa| |sa ma ea], (Prim2SF b) as [sb|sb| |sb mb eb];
    cbn; try discriminate; try reflexivity;
    try (destruct sa; discriminate);
    try (destruct sa, sb; cbn; (discriminate || reflexivity)).
Qed.

(** One over a zero is an infinity. *)
Lemma one_over_zero (z : float) :
  is_zero z = true -> exists s, Prim2SF (d1 / z)%D = S754_infinity s.
Proof.
  unfold is_zero. rewrite eqb_spec. unfold SFeqb.
  change (Prim2SF zero) with (S754_zero false).
  change (Prim2SF (d1 / z)%D) with (Prim2SF (PrimFloat.div 1 z)).
  rewrite div_spec.
  change (Prim2SF 1) with (S754_finite false 4503599627370496 (-52)).
  destruct (Prim2SF z) as [s|s| |s m e]; cbn; try discriminate; eauto.
  - destruct s; discriminate.
  - destruct s; discriminate.
Qed.

(** Anything times an infinity is an infinity or NaN. *)
Lemma times_infinity (x y : float) (s : bool) :
  Prim2SF y = S754_infinity s -> is_finite (x * y)%D = false.
Proof.
  intros I. unfold is_finite, is_infinity, is_nan.
  rewrite !eqb_spec, abs_spec.
  change (Prim2SF (x * y)%D) with (Prim2SF (PrimFloat.mul x y)).
  rewrite mul_spec, I.
  change (Prim2SF infinity) with (S754_infinity false).
  destruct (Prim2SF x) as [sx|sx| |sx mx ex]; try destruct sx;
    destruct s; reflexivity.
Qed.

End F64Arith.

(** ** Validity, sound speed and Mach number on doubles *)

Section Validity.
Local Open Scope dbl_scope.

Variables (r : Relations float) (data : MaterialModelData float) (vb : bool).

(** The answer of [CheckState] on a variant. *)
Lemma CheckState_Variant (V : ptr) (w : world float) :
  let rho := cell w V 0 in
  let p := cell w V 4 in
  let e := energy r rho p in
  let c2 := dpdrho r rho e + p / rho * bigGamma r rho e in
  exists w',
    CheckState (Variant r data vb) V w =
      Done ((rho <=? d0) || (c2 <=? d0))%bool w' /\
    (((rho <=? d0) || (c2 <=? d0))%bool = false -> w' = w).
Proof.
  intros rho p e c2. subst rho p e c2. run.
  match goal with |- context [if ?c then _ else _] => destruct c eqn:E end.
  - destruct vb; cbn; eexists; (split; [reflexivity|]); discriminate.
  - eexists. split; reflexivity.
Qed.

(** X10: a state that [CheckState] accepts has a sound speed and a Mach
    number, when the material's pressure and energy relations agree at
    that state ([GetPressure] of the energy of [(rho, p)] is [p]):
    [ComputeSoundSpeed] at [(rho, e)] and [ComputeMachNumber] at [V] both
    return, without exiting. *)
Theorem accepted_state_has_sound_speed (V : ptr) (w w' : world float) :
  let f := Variant r data vb in
  let rho := cell w V 0 in
  let p := cell w V 4 in
  let e := energy r rho p in
  let q := cell w V 1 * cell w V 1 + cell w V 2 * cell w V 2
           + cell w V 3 * cell w V 3 in
  pressure r rho e = p ->
  CheckState f V w = Done false w' ->
  exists c,
    ComputeSoundSpeed f rho e w = Done c w /\
    ComputeMachNumber f V w = Done (dsqrt q / c) w /\
    (c <=? d0) = (dsqrt (c2_of r rho e) <=? d0).
Proof.
  intros f rho p e q K E.
  destruct (CheckState_Variant V w) as (w1 & E1 & _).
  fold f rho p e in E1. rewrite E in E1. injection E1 as Eb _.
  symmetry in Eb. apply orb_false_iff in Eb. destruct Eb as [_ L].
  assert (L' : (c2_of r rho e <=? d0) = false)
    by (unfold c2_of; rewrite K; exact L).
  destruct (sound_speed_of_variant r data vb rho e w) as [_ ES].
  fold f in ES. rewrite L' in ES.
  pose proof (ComputeMachNumber_Variant r data vb V w) as EM.
  cbv zeta in EM. fold f rho p e in EM.
  rewrite (F64Arith.not_le_not_lt _ _ L') in EM.
  exists (dsqrt (c2_of r rho e)). repeat split; assumption.
Qed.

(** X11: the Mach number is the speed over the sound speed: whenever
    [ComputeSoundSpeed] returns [c] at the density and the energy of [V],
    [ComputeMachNumber] returns [sqrt(u*u + v*v + w*w) / c]. *)
Theorem mach_number_over_sound_speed (V : ptr) (w w' : world float) (c : float) :
  let f := Variant r data vb in
  let rho := cell w V 0 in
  let e := energy r rho (cell w V 4) in
  let q := cell w V 1 * cell w V 1 + cell w V 2 * cell w V 2
           + cell w V 3 * cell w V 3 in
  ComputeSoundSpeed f rho e w = Done c w' ->
  ComputeMachNumber f V w = Done (dsqrt q / c) w.
Proof.
  intros f rho e q E.
  destruct (sound_speed_of_variant r data vb rho e w) as [_ ES].
  fold f in ES. rewrite E in ES.
  destruct (c2_of r rho e <=? d0) eqn:L; [discriminate|].
  injection ES as -> _.
  pose proof (ComputeMachNumber_Variant r data vb V w) as EM.
  cbv zeta in EM. fold f rho e in EM.
  rewrite (F64Arith.not_le_not_lt _ _ L) in EM. exact EM.
Qed.

(** X12: a density that is NaN sets off no check, for any material:
    [CheckState] accepts the state, and [ComputeSoundSpeed] and
    [ComputeMachNumber] return NaN instead of exiting. *)
Theorem nan_density_sets_off_no_check (V : ptr) (w : world float) :
  let f := Variant r data vb in
  let rho := cell w V 0 in
  is_nan rho = true ->
  CheckState f V w = Done false w /\
  (exists m, ComputeMachNumber f V w = Done m w /\ is_nan m = true) /\
  (forall e, exists c,
     ComputeSoundSpeed f rho e w = Done c w /\ is_nan c = true).
Proof.
  intros f rho N.
  assert (C : forall a x g : float, is_nan (a + x / rho * g) = true).
  { intros a x g. apply F64Arith.add_nan, F64Arith.nan_mul, F64Arith.div_nan.
    exact N. }
  repeat apply conj.
  - destruct (CheckState_Variant V w) as (w1 & E1 & Ew).
    fold f rho in E1, Ew.
    match type of E1 with _ = Done ?b _ => assert (B : b = false) end.
    { rewrite (F64Arith.nan_le rho d0 N).
      rewrite (F64Arith.nan_le _ d0 (C _ _ _)). reflexivity. }
    rewrite B in E1. rewrite (Ew B) in E1. exact E1.
  - pose proof (ComputeMachNumber_Variant r data vb V w) as EM.
    cbv zeta in EM. fold f rho in EM. unfold c2_of in EM.
    rewrite (F64Arith.nan_lt _ d0 (C _ _ _)) in EM.
    eexists. split; [exact EM|].
    apply F64Arith.div_nan, F64Arith.sqrt_nan, C.
  - intros e.
    destruct (sound_speed_of_variant r data vb rho e w) as [_ ES].
    fold f in ES. unfold c2_of in ES.
    rewrite (F64Arith.nan_le _ d0 (C _ _ _)) in ES.
    eexists. split; [exact ES|].
    apply F64Arith.sqrt_nan, C.
Qed.

(** X14: [ConservativeToPrimitive] does not guard its division: with a
    density [U[0]] that is zero (of either sign) it returns, and the three
    velocities it leaves are infinite or NaN. *)
Theorem ConservativeToPrimitive_at_zero_density (U V : ptr) (w : world float) :
  let f := Variant r data vb in
  disjoint U V ->
  is_zero (cell w U 0) = true ->
  exists w',
    ConservativeToPrimitive f U V w = Done tt w' /\
    is_finite (cell w' V 1) = false /\
    is_finite (cell w' V 2) = false /\
    is_finite (cell w' V 3) = false.
Proof.
  intros f D Z.
  destruct (ConservativeToPrimitive_Variant r data vb U V w D)
    as (w' & E & S & _).
  exists w'. split; [exact E|].
  unfold state in S. cbn [map] in S. unfold primitive_of in S.
  injection S as _ S1 S2 S3 _. rewrite S1, S2, S3.
  destruct (F64Arith.one_over_zero _ Z) as [s I].
  repeat split; apply (F64Arith.times_infinity _ _ s I).
Qed.

End Validity.

(** ** Clipping on doubles: monotonicity, and [CheckState] afterwards *)

(** What stands right of [<] is a number. *)
Lemma lt_gives_number (x y : float) : (x <? y)%D = true -> is_number y.
Proof.
  change (PrimFloat.ltb x y = true -> is_number y).
  rewrite ltb_spec. unfold SFltb. intros L.
  apply F64Arith.number_spec. intros N. rewrite N in L.
  destruct (Prim2SF x); discriminate.
Qed.

Section ClipThenCheck.
Local Open Scope dbl_scope.

Variables (r : Relations float) (data : MaterialModelData float) (vb : bool).

(** X8: clipping never lowers a value: with [U] not supplied or not
    overlapping [V], and a density and a pressure that are numbers, each of
    them afterwards is the value on entry or the floor, and is not below
    the value on entry. *)
Theorem clip_never_lowers (V U : ptr) (w : world float) :
  let f := Variant r data vb in
  let rho := cell w V 0 in
  let p := cell w V 4 in
  U = 0%Z \/ disjoint V U ->
  is_number rho -> is_number p ->
  exists clip w1,
    ClipDensityAndPressure f V U w = Done clip w1 /\
    (cell w1 V 0 = rho \/ cell w1 V 0 = rhomin f) /\
    (cell w1 V 4 = p \/ cell w1 V 4 = pmin f) /\
    (rho <=? cell w1 V 0) = true /\
    (p <=? cell w1 V 4) = true.
Proof.
  intros f rho p D Nrho Np.
  destruct (ClipDensityAndPressure_Variant r data vb V U w D)
    as (w1 & E & C0 & _ & _ & _ & C4 & _).
  fold f rho p in E, C0, C4.
  do 2 eexists. split; [exact E|]. rewrite C0, C4.
  destruct (rho <? rhomin f) eqn:L0, (p <? pmin f) eqn:L4;
    repeat split; auto using F64.le_refl, F64Arith.lt_le.
Qed.

(** X9: after clipping with a positive density floor, [CheckState] can
    only object to the sound speed: with [U] not supplied or not overlapping
    [V] and a density that is a number, the density left by
    [ClipDensityAndPressure] is not [<= 0], and [CheckState] on the clipped
    state answers [true] exactly when [c2 <= 0] there. *)
Theorem CheckState_after_clip (V U : ptr) (w : world float) :
  let f := Variant r data vb in
  U = 0%Z \/ disjoint V U ->
  is_number (cell w V 0) ->
  (d0 <? rhomin f) = true ->
  exists clip w1 b w2,
    ClipDensityAndPressure f V U w = Done clip w1 /\
    CheckState f V w1 = Done b w2 /\
    (cell w1 V 0 <=? d0) = false /\
    let rho := cell w1 V 0 in
    let p := cell w1 V 4 in
    let e := energy r rho p in
    b = (dpdrho r rho e + p / rho * bigGamma r rho e <=? d0).
Proof.
  intros f D Nrho P.
  destruct (ClipDensityAndPressure_Variant r data vb V U w D)
    as (w1 & E & C0 & _).
  fold f in E, C0.
  assert (G : (rhomin f <=? cell w1 V 0) = true).
  { rewrite C0. destruct (cell w V 0 <? rhomin f) eqn:L.
    - apply F64.le_refl. exact (lt_gives_number _ _ P).
    - apply F64.not_lt_le; [exact Nrho | exact (lt_gives_number _ _ P) | exact L]. }
  pose proof (F64Arith.above_positive _ _ P G) as Z.
  destruct (CheckState_Variant r data vb V w1) as (w2 & E2 & _).
  fold f in E2. rewrite Z in E2. cbn [orb] in E2.
  do 4 eexists. split; [exact E|]. split; [exact E2|].
  split; [exact Z|reflexivity].
Qed.

End ClipThenCheck.

(** ** Exact arithmetic: enthalpy and sound speed *)

Section ExactMore.
Local Open Scope R_scope.

Variables (r : Relations R) (data : MaterialModelData R) (vb : bool).

(** X13: H = 1/rho*(E + p).  In exact arithmetic, for a density that is
    not zero, what [ComputeTotalEnthalpyPerUnitMass] returns at [V] is the
    total energy [U[4]] that [PrimitiveToConservative] computes from [V],
    plus the pressure, over the density. *)
Theorem total_enthalpy_from_energy (V U : ptr) (w : world R) :
  let f := Variant r data vb in
  disjoint V U ->
  cell w V 0 <> 0 ->
  exists w1 h,
    PrimitiveToConservative f V U w = Done tt w1 /\
    ComputeTotalEnthalpyPerUnitMass f V w1 = Done h w1 /\
    h = 1 / cell w1 U 0 * (cell w1 U 4 + cell w1 V 4).
Proof.
  intros f D N.
  destruct (PrimitiveToConservative_Variant r data vb V U w D)
    as (w1 & E & S & _ & Fr).
  exists w1. eexists. split; [exact E|]. split; [reflexivity|].
  unfold state in S. cbn [map] in S. unfold conservative_of in S.
  injection S as S0 _ _ _ S4. rewrite S0, S4.
  unfold cell in *. unfold disjoint in D.
  rewrite !Fr by lia.
  change (@dadd R exact) with Rplus. change (@dmul R exact) with Rmult.
  change (@ddiv R exact) with Rdiv. change (@dhalf R exact) with (1 / 2).
  field. exact N.
Qed.

(** X15: in exact arithmetic, what [ComputeSoundSpeed] returns is
    positive: it is never zero, so a Mach number computed from it divides
    by no zero. *)
Theorem sound_speed_is_positive (rho e c : R) (w w' : world R) :
  ComputeSoundSpeed (Variant r data vb) rho e w = Done c w' -> 0 < c.
Proof.
  intros E.
  destruct (sound_speed_of_variant r data vb rho e w) as [_ ES].
  rewrite E in ES.
  destruct (dle (c2_of r rho e) d0) eqn:L; [discriminate|].
  injection ES as -> _.
  apply sqrt_lt_R0.
  change (R_leb (c2_of r rho e) 0 = false) in L. unfold R_leb in L.
  destruct (Rle_dec (c2_of r rho e) 0) as [|G]; [discriminate|].
  apply Rnot_le_lt. exact G.
Qed.

End ExactMore.

(** ** The further properties at concrete inputs *)

Lemma ConservativeToPrimitive_in_place_example :
  let f := Variant (perfect_gas 1.4%float) (floors 1e-6%float 1e-6%float) false in
  let w := world_VU [0; 0; 0; 0; 0]%float [2; 6; 0; 0; 14]%float in
  disjoint 16 8 /\
  exists w1 w2,
    ConservativeToPrimitive f 16 16 w = Done tt w1 /\
    ConservativeToPrimitive f 16 8 w = Done tt w2 /\
    state w1 16 = state w2 8.
Proof.
  intros f w.
  assert (D : disjoint 16 8) by (unfold disjoint; lia).
  split; [exact D|].
  exact (ConservativeToPrimitive_in_place (perfect_gas 1.4%float)
           (floors 1e-6%float 1e-6%float) false 16%Z 8%Z w D).
Defined.

(** Density 2 and velocity [(1, 0, 0)]: none of the three exceptions, so
    the energy written in place is not that of a separate target. *)
Lemma PrimitiveToConservative_in_place_example :
  let f := Variant (perfect_gas (14 / 10)%R) (floors 1%R 1%R) false in
  let w := world_VU [2; 1; 0; 0; 1]%R [0; 0; 0; 0; 0]%R in
  disjoint 8 16 /\
  exists w1 w2,
    PrimitiveToConservative f 8 8 w = Done tt w1 /\
    PrimitiveToConservative f 8 16 w = Done tt w2 /\
    cell w1 8 0 = cell w2 16 0 /\
    cell w1 8 4 <> cell w2 16 4.
Proof.
  intros f w.
  assert (D : disjoint 8 16) by (unfold disjoint; lia).
  split; [exact D|].
  destruct (PrimitiveToConservative_in_place (perfect_gas (14 / 10)%R)
              (floors 1%R 1%R) false 8%Z 16%Z w D)
    as (w1 & w2 & E1 & E2 & C0 & _ & _ & _ & C4).
  exists w1, w2. repeat (split; [assumption|]).
  intros Q. apply C4 in Q.
  change (cell w 8 0) with 2%R in Q. change (cell w 8 1) with 1%R in Q.
  destruct Q as [Q|[Q|(Q & _)]]; lra.
Defined.

(** The base class at the spec's scenario B: both clamps fire and the call
    exits with [V] clamped and [U] half written. *)
Lemma clip_on_base_class_scenario_B :
  let f := VarFcnBase (floors 1e-6%float 1e-6%float) false in
  let w := world_VU [1e-8; 3; 0; 0; 1e-8]%float [5; 6; 7; 8; 9]%float in
  16%Z <> 0%Z /\ disjoint 8 16 /\
  exists w',
    ClipDensityAndPressure f 8 16 w = Fatal w' /\
    state w' 8 = [1e-6; 3; 0; 0; 1e-6]%float /\
    state w' 16 = [1e-6; (1e-6 * 3)%float; (1e-6 * 0)%float;
                   (1e-6 * 0)%float; 9]%float /\
    last_printed w' =
      Some (Printf stderr
              "*** Error:  GetInternalEnergyPerUnitMass Function not defined\n"
              []).
Proof.
  intros f w.
  assert (NZ : 16%Z <> 0%Z) by lia.
  assert (D : disjoint 8 16) by (unfold disjoint; lia).
  split; [exact NZ|]. split; [exact D|].
  exact (clip_on_base_class (floors 1e-6%float 1e-6%float) false 8%Z 16%Z w
           NZ D).
Defined.

Lemma clip_never_lowers_scenario_B :
  let f := Variant (perfect_gas 1.4%float) (floors 1e-6%float 1e-6%float) true in
  let w := world_VU [1e-8; 0; 0; 0; 1e-8]%float [0; 0; 0; 0; 0]%float in
  disjoint 8 16 /\ is_number (cell w 8 0) /\ is_number (cell w 8 4) /\
  exists clip w1,
    ClipDensityAndPressure f 8 16 w = Done clip w1 /\
    (cell w1 8 0 = cell w 8 0 \/ cell w1 8 0 = rhomin f) /\
    (cell w1 8 4 = cell w 8 4 \/ cell w1 8 4 = pmin f) /\
    (cell w 8 0 <=? cell w1 8 0)%D = true /\
    (cell w 8 4 <=? cell w1 8 4)%D = true.
Proof.
  intros f w.
  assert (D : disjoint 8 16) by (unfold disjoint; lia).
  split; [exact D|]. split; [reflexivity|]. split; [reflexivity|].
  exact (clip_never_lowers (perfect_gas 1.4%float)
           (floors 1e-6%float 1e-6%float) true 8%Z 16%Z w (or_intror D)
           eq_refl eq_refl).
Defined.

Lemma CheckState_after_clip_scenario_B :
  let r := perfect_gas 1.4%float in
  let f := Variant r (floors 1e-6%float 1e-6%float) true in
  let w := world_VU [1e-8; 0; 0; 0; 1e-8]%float [0; 0; 0; 0; 0]%float in
  disjoint 8 16 /\ is_number (cell w 8 0) /\ (d0 <? rhomin f)%D = true /\
  exists clip w1 b w2,
    ClipDensityAndPressure f 8 16 w = Done clip w1 /\
    CheckState f 8 w1 = Done b w2 /\
    (cell w1 8 0 <=? d0)%D = false /\
    b = (dpdrho r (cell w1 8 0) (energy r (cell w1 8 0) (cell w1 8 4))
         + cell w1 8 4 / cell w1 8 0
           * bigGamma r (cell w1 8 0) (energy r (cell w1 8 0) (cell w1 8 4))
         <=? d0)%D.
Proof.
  intros r f w.
  assert (D : disjoint 8 16) by (unfold disjoint; lia).
  split; [exact D|]. split; [reflexivity|]. split; [reflexivity|].
  exact (CheckState_after_clip r (floors 1e-6%float 1e-6%float) true
           8%Z 16%Z w (or_intror D) eq_refl eq_refl).
Defined.

(** The spec's scenario A: [CheckState] accepts [V = (1, 0, 0, 0, 1)]. *)
Lemma accepted_state_has_sound_speed_scenario_A :
  let r := perfect_gas 1.4%float in
  let f := Variant r (floors 1e-6%float 1e-6%float) false in
  let w := world_VU [1; 0; 0; 0; 1]%float [0; 0; 0; 0; 0]%float in
  let e := energy r 1%float 1%float in
  pressure r 1%float e = 1%float /\
  CheckState f 8 w = Done false w /\
  exists c,
    ComputeSoundSpeed f 1%float e w = Done c w /\
    ComputeMachNumber f 8 w = Done (dsqrt (0 * 0 + 0 * 0 + 0 * 0)%float / c)%D w /\
    (c <=? d0)%D = (dsqrt (c2_of r 1%float e) <=? d0)%D.
Proof.
  intros r f w e.
  assert (K : pressure r 1%float e = 1%float) by (vm_compute; reflexivity).
  assert (E : CheckState f 8 w = Done false w) by (vm_compute; reflexivity).
  split; [exact K|]. split; [exact E|].
  exact (accepted_state_has_sound_speed r (floors 1e-6%float 1e-6%float) false
           8%Z w w K E).
Defined.

Lemma mach_number_over_sound_speed_example :
  let r := perfect_gas 1.4%float in
  let f := Variant r (floors 1e-6%float 1e-6%float) false in
  let w := world_VU [1; 3; 4; 0; 1]%float [0; 0; 0; 0; 0]%float in
  let e := energy r 1%float 1%float in
  exists c,
    ComputeSoundSpeed f 1%float e w = Done c w /\
    ComputeMachNumber f 8 w = Done (dsqrt (3 * 3 + 4 * 4 + 0 * 0)%float / c)%D w.
Proof.
  intros r f w e.
  assert (E : ComputeSoundSpeed f 1%float e w
              = Done (dsqrt (c2_of r 1%float e)) w) by (vm_compute; reflexivity).
  eexists. split; [exact E|].
  exact (mach_number_over_sound_speed r (floors 1e-6%float 1e-6%float) false
           8%Z w w _ E).
Defined.

Lemma nan_density_sets_off_no_check_example :
  let r := perfect_gas 1.4%float in
  let f := Variant r (floors 1e-6%float 1e-6%float) true in
  let w := world_VU [nan; 1; 0; 0; 1]%float [0; 0; 0; 0; 0]%float in
  is_nan (cell w 8 0) = true /\
  CheckState f 8 w = Done false w /\
  (exists m, ComputeMachNumber f 8 w = Done m w /\ is_nan m = true) /\
  (forall e, exists c,
     ComputeSoundSpeed f (cell w 8 0) e w = Done c w /\ is_nan c = true).
Proof.
  intros r f w. split; [reflexivity|].
  exact (nan_density_sets_off_no_check r (floors 1e-6%float 1e-6%float) true
           8%Z w eq_refl).
Defined.

Lemma ConservativeToPrimitive_at_zero_density_example :
  let f := Variant (perfect_gas 1.4%float) (floors 1e-6%float 1e-6%float) false in
  let w := world_VU [0; 0; 0; 0; 0]%float [0; 1; 0; 0; 1]%float in
  disjoint 16 8 /\ is_zero (cell w 16 0) = true /\
  exists w',
    ConservativeToPrimitive f 16 8 w = Done tt w' /\
    is_finite (cell w' 8 1) = false /\
    is_finite (cell w' 8 2) = false /\
    is_finite (cell w' 8 3) = false.
Proof.
  intros f w.
  assert (D : disjoint 16 8) by (unfold disjoint; lia).
  split; [exact D|]. split; [reflexivity|].
  exact (ConservativeToPrimitive_at_zero_density (perfect_gas 1.4%float)
           (floors 1e-6%float 1e-6%float) false 16%Z 8%Z w D eq_refl).
Defined.

Lemma total_enthalpy_from_energy_example :
  let f := Variant (perfect_gas (14 / 10)%R) (floors 1%R 1%R) false in
  let w := world_VU [2; 1; 0; 0; 1]%R [0; 0; 0; 0; 0]%R in
  disjoint 8 16 /\ cell w 8 0 <> 0%R /\
  exists w1 h,
    PrimitiveToConservative f 8 16 w = Done tt w1 /\
    ComputeTotalEnthalpyPerUnitMass f 8 w1 = Done h w1 /\
    h = (1 / cell w1 16 0 * (cell w1 16 4 + cell w1 8 4))%R.
Proof.
  intros f w.
  assert (D : disjoint 8 16) by (unfold disjoint; lia).
  assert (N : cell w 8 0 <> 0%R) by (cbn; lra).
  split; [exact D|]. split; [exact N|].
  exact (total_enthalpy_from_energy (perfect_gas (14 / 10)%R)
           (floors 1%R 1%R) false 8%Z 16%Z w D N).
Defined.

Lemma sound_speed_is_positive_example :
  let f := Variant (perfect_gas 2%R) (floors 1%R 1%R) false in
  let w := world_VU [] [] in
  exists c, ComputeSoundSpeed f 1%R 1%R w = Done c w /\ (0 < c)%R.
Proof.
  intros f w.
  destruct (sound_speed_of_variant (perfect_gas 2%R) (floors 1%R 1%R) false
              1%R 1%R w) as [_ ES].
  fold f in ES.
  assert (L : dle (c2_of (perfect_gas 2%R) 1%R 1%R) d0 = false).
  { apply R_leb_of_pos. unfold c2_of. cbn. lra. }
  rewrite L in ES.
  eexists. split; [exact ES|].
  exact (sound_speed_is_positive (perfect_gas 2%R) (floors 1%R 1%R) false
           1%R 1%R _ w w ES).
Defined.

(** ** NaN and the clamps *)

(** X16: a NaN is never clamped: on every object, when the density and
    the pressure on entry are NaN (or when both floors are),
    [ClipDensityAndPressure] answers [false] and changes nothing, whatever
    [U]. *)
Theorem clip_lets_nan_through (this : VarFcn float) (V U : ptr) (w : world float) :
  (is_nan (cell w V 0) = true /\ is_nan (cell w V 4) = true) \/
  (is_nan (rhomin this) = true /\ is_nan (pmin this) = true) ->
  ClipDensityAndPressure this V U w = Done false w.
Proof.
  intros N. apply ClipDensityAndPressure_no_clamp.
  - change (PrimFloat.ltb (cell w V 0) (rhomin this) = false).
    rewrite ltb_spec.
    destruct N as [[N _]|[N _]]; apply F64Arith.nan_spec in N; rewrite N;
      [reflexivity | destruct (Prim2SF (cell w V 0)); reflexivity].
  - change (PrimFloat.ltb (cell w V 4) (pmin this) = false).
    rewrite ltb_spec.
    destruct N as [[_ N]|[_ N]]; apply F64Arith.nan_spec in N; rewrite N;
      [reflexivity | destruct (Prim2SF (cell w V 4)); reflexivity].
Qed.

Lemma clip_lets_nan_through_example :
  let f := Variant (perfect_gas 1.4%float) (floors 1e-6%float 1e-6%float) true in
  let w := world_VU [nan; 1; 0; 0; nan]%float [0; 0; 0; 0; 0]%float in
  is_nan (cell w 8 0) = true /\ is_nan (cell w 8 4) = true /\
  ClipDensityAndPressure f 8 16 w = Done false w.
Proof.
  intros f w. split; [reflexivity|]. split; [reflexivity|].
  exact (clip_lets_nan_through f 8%Z 16%Z w (or_introl (conj eq_refl eq_refl))).
Defined.

(** ** How far a round trip on doubles can be off *)

(** On doubles only the density is sure to come back.  With a material
    whose two relations undo one another for every double: at the smallest
    positive density [1/rho] overflows and the velocities and the pressure
    come back infinite or NaN; and at density [1] with velocity [1e10] the
    pressure [1] comes back as [0], lost in the rounding of the energy. *)
Example roundtrip_far_off_on_doubles :
  let f := Variant pressure_is_energy (floors 1e-6%float 1e-6%float) false in
  (let w := world_VU [0x1p-1074; 1; 0; 0; 1]%float [0; 0; 0; 0; 0]%float in
   exists w1 w2,
     PrimitiveToConservative f 8 16 w = Done tt w1 /\
     ConservativeToPrimitive f 16 8 w1 = Done tt w2 /\
     state w2 8 = [0x1p-1074; infinity; nan; nan; nan]%float) /\
  (let w := world_VU [1; 1e10; 0; 0; 1]%float [0; 0; 0; 0; 0]%float in
   exists w1 w2,
     PrimitiveToConservative f 8 16 w = Done tt w1 /\
     ConservativeToPrimitive f 16 8 w1 = Done tt w2 /\
     state w2 8 = [1; 1e10; 0; 0; 0]%float).
Proof.
  intros f. split; intros w; do 2 eexists;
    (split; [vm_compute; reflexivity|]);
    split; vm_compute; reflexivity.
Qed.

(** The same after clipping: the density floor [2^-1074] is not zero, and
    the clamped state [(2^-1074, 1, 0, 0, 1)] comes back from [U] with an
    infinite velocity and NaN elsewhere. *)
Example clip_then_back_far_off_on_doubles :
  let f := Variant pressure_is_energy (floors 0x1p-1074%float 0%float) false in
  let w := world_VU [0; 1; 0; 0; 1]%float [0; 0; 0; 0; 0]%float in
  exists w1 w2,
    ClipDensityAndPressure f 8 16 w = Done true w1 /\
    ConservativeToPrimitive f 16 24 w1 = Done tt w2 /\
    state w1 8 = [0x1p-1074; 1; 0; 0; 1]%float /\
    state w2 24 = [0x1p-1074; infinity; nan; nan; nan]%float.
Proof.
  intros f w. do 2 eexists.
  split; [vm_compute; reflexivity|].
  split; [vm_compute; reflexivity|].
  split; vm_compute; reflexivity.
Qed.
